(** * Hotel room reservation: the layout, the travel-time metric and the allocator

    A shallow embedding of the core of [src/main.ts] (lines 1-138): the room
    records, [buildHotelRooms], [travelTimeBetween], [totalTravelTimeForRooms]
    and [allocateRooms].

    Modelling conventions.
    - A TypeScript [number] that holds a room number, a floor, a position, a
      requested count or a travel time is an integer of [Z]; array lengths and
      array indices are [nat].
    - [Room[]] is [list Room].  A room is the record of its four fields, so two
      list entries with the same fields are the same room.
    - [Number.POSITIVE_INFINITY] and [null] are [None] of an [option].
    - A [Map<number, Room[]>] is an association list in insertion order, which
      is the order in which [Map.prototype.entries] yields its entries.
    - [Array.prototype.sort] is stable; with a comparator that is a total
      preorder its result is the stable sorted arrangement, computed here by a
      stable insertion sort.
    - A [for] loop over array indices is a fold over the list of the indices
      it visits, or a recursion over the part of the array not yet visited. *)

From Stdlib Require Import ZArith List Bool Lia Permutation Sorted.
From Stdlib Require String.
Import ListNotations.
Import String.StringSyntax.
Delimit Scope string_scope with string.
Open Scope Z_scope.

(** ** Data model (main.ts, lines 3-17) *)

Inductive RoomStatus : Type :=
| free
| booked
| blocked.

Record Room : Type := mkRoom {
  id : Z;
  floor : Z;
  indexOnFloor : Z;
  status : RoomStatus
}.

Record BookingResult : Type := mkBookingResult {
  rooms : list Room;
  totalTravelTime : Z
}.

(** [r.status === 'free'] *)
Definition isFree (r : Room) : bool :=
  match status r with
  | free => true
  | _ => false
  end.

(** [r.floor === f] *)
Definition onFloor (f : Z) (r : Room) : bool := floor r =? f.

(** ** Generic array operations *)

(** The integers [lo, lo+1, ..., lo+n-1]: the values a counting [for] loop
    gives its variable. *)
Definition upto (lo : Z) (n : nat) : list Z :=
  map (fun k => lo + Z.of_nat k) (seq 0 n).

(** [a.slice(s, e)] for indices [0 <= s <= e]: the elements at positions
    [s .. min(e, length) - 1]. *)
Definition slice {A : Type} (a : list A) (s e : nat) : list A :=
  firstn (e - s) (skipn s a).

Section StableSort.
Variable A : Type.
(** A comparator in the JavaScript convention: negative when the first
    argument goes first, positive when it goes last. *)
Variable cmp : A -> A -> Z.

(** [x] enters before the first element it is strictly smaller than, so
    equal keys keep their order when the list is rebuilt from the right. *)
Fixpoint insertBy (x : A) (l : list A) : list A :=
  match l with
  | [] => [x]
  | y :: t => if cmp x y <=? 0 then x :: y :: t else y :: insertBy x t
  end.

Fixpoint sortBy (l : list A) : list A :=
  match l with
  | [] => []
  | x :: t => insertBy x (sortBy t)
  end.
End StableSort.

Arguments insertBy {A} cmp x l.
Arguments sortBy {A} cmp l.

(** ** Layout (main.ts, lines 19-49) *)

Definition buildHotelRooms : list Room :=
  let lower :=
    flat_map (fun fl =>
      map (fun i => let roomNumber := fl * 100 + (i + 1) in
                    mkRoom roomNumber fl i free)
          (upto 0 10))
      (upto 1 9) in
  let topFloor := 10 in
  lower ++
  map (fun i => let roomNumber := 1001 + i in
                mkRoom roomNumber topFloor i free)
      (upto 0 7).

(** ** Travel-time metric (main.ts, lines 51-70) *)

Definition travelTimeBetween (a b : Room) : Z :=
  let vertical := Z.abs (floor a - floor b) * 2 in
  let horizontal := Z.abs (indexOnFloor a - indexOnFloor b) * 1 in
  vertical + horizontal.

(** [if (t < best) best = t], where [best] starts at [+Infinity] ([None]). *)
Definition lowerTo (best : option Z) (t : Z) : option Z :=
  match best with
  | None => Some t
  | Some b => if t <? b then Some t else best
  end.

(** The inner loop [for (j = i + 1; j < rooms.length; j++)] for [a = rooms[i]]
    and [rest] the rooms after position [i]. *)
Fixpoint innerLoop (a : Room) (rest : list Room) (best : option Z) : option Z :=
  match rest with
  | [] => best
  | b :: tl => innerLoop a tl (lowerTo best (travelTimeBetween a b))
  end.

(** The outer loop [for (i = 0; i < rooms.length; i++)] over the rooms from
    position [i] on. *)
Fixpoint outerLoop (l : list Room) (best : option Z) : option Z :=
  match l with
  | [] => best
  | a :: tl => outerLoop tl (innerLoop a tl best)
  end.

Definition totalTravelTimeForRooms (l : list Room) : Z :=
  if (length l <=? 1)%nat then 0
  else match outerLoop l None with
       | None => 0
       | Some best => best
       end.

(** ** Allocator (main.ts, lines 72-138) *)

(** The update both phases make for a candidate (lines 96-100 and 123-126):
    [if (!best || time < best.totalTravelTime) best = { rooms, totalTravelTime }]. *)
Definition keepBetter (best : option BookingResult) (candidate : list Room)
  : option BookingResult :=
  let time := totalTravelTimeForRooms candidate in
  match best with
  | None => Some (mkBookingResult candidate time)
  | Some b =>
      if time <? totalTravelTime b then Some (mkBookingResult candidate time)
      else best
  end.

(** Lines 84-85: [if (!m.has(r.floor)) m.set(r.floor, []); m.get(r.floor).push(r)].
    A new key goes last; an existing entry keeps its place. *)
Fixpoint mapPush (m : list (Z * list Room)) (r : Room) : list (Z * list Room) :=
  match m with
  | [] => [(floor r, [r])]
  | (f, l) :: tl =>
      if f =? floor r then (f, l ++ [r]) :: tl else (f, l) :: mapPush tl r
  end.

(** Lines 82-86: [roomsByFloor]. *)
Definition groupByFloor (freeRooms : list Room) : list (Z * list Room) :=
  fold_left mapPush freeRooms [].

(** Line 90: [(a, b) => a.indexOnFloor - b.indexOnFloor]. *)
Definition cmpIndex (a b : Room) : Z := indexOnFloor a - indexOnFloor b.

(** Lines 113-116. *)
Definition cmpFloorIndex (a b : Room) : Z :=
  if negb (floor a =? floor b) then floor a - floor b
  else indexOnFloor a - indexOnFloor b.

(** Lines 94-101: the window loop
    [for (start = 0; start + count <= sorted.length; start++)]; it visits
    [start = 0 .. sorted.length - count]. *)
Definition slideWindows (sorted : list Room) (count : nat)
  (best : option BookingResult) : option BookingResult :=
  fold_left
    (fun best start => keepBetter best (slice sorted start (start + count)))
    (seq 0 (length sorted + 1 - count))
    best.

(** Lines 88-102: the loop over the entries of [roomsByFloor]. *)
Fixpoint singleFloorLoop (entries : list (Z * list Room)) (count : Z)
  (best : option BookingResult) : option BookingResult :=
  match entries with
  | [] => best
  | (_, floorRooms) :: rest =>
      let sorted := sortBy cmpIndex floorRooms in
      if Z.of_nat (length sorted) <? count
      then singleFloorLoop rest count best
      else singleFloorLoop rest count (slideWindows sorted (Z.to_nat count) best)
  end.

(** Lines 121-134: [backtrack(startIndex, chosen)], with [bestMulti] passed
    in and out.  [pool] is [candidatePool] from [startIndex] on; the inner
    [loop] is the [for] loop over [i], which pushes [candidatePool[i]], recurses
    on the positions after [i] and pops. *)
Fixpoint backtrack (count : Z) (pool : list Room) (chosen : list Room)
  (bestMulti : option BookingResult) {struct pool} : option BookingResult :=
  if Z.of_nat (length chosen) =? count then keepBetter bestMulti chosen
  else
    (fix loop (p : list Room) (best : option BookingResult) {struct p}
       : option BookingResult :=
       match p with
       | [] => best
       | x :: rest => loop rest (backtrack count rest (chosen ++ [x]) best)
       end) pool bestMulti.

Definition allocateRooms (rs : list Room) (count : Z) : option BookingResult :=
  if (count <=? 0) || (count >? 5) then None
  else
    let freeRooms := filter isFree rs in
    if Z.of_nat (length freeRooms) <? count then None
    else
      let roomsByFloor := groupByFloor freeRooms in
      match singleFloorLoop roomsByFloor count None with
      | Some bestSingleFloor => Some bestSingleFloor
      | None =>
          let minRooms := Nat.min (length freeRooms) 20 in
          let candidatePool :=
            slice (sortBy cmpFloorIndex freeRooms) 0 minRooms in
          backtrack count candidatePool [] None
      end.

(** ** Concrete states used by the scenarios *)

Definition setStatus (s : RoomStatus) (r : Room) : Room :=
  mkRoom (id r) (floor r) (indexOnFloor r) s.

(** The hotel with every room booked except the rooms whose number is in
    [keep]. *)
Definition bookedExcept (keep : list Z) : list Room :=
  map (fun r => if existsb (Z.eqb (id r)) keep then r else setStatus booked r)
      buildHotelRooms.

Definition room510 : Room := mkRoom 510 5 9 free.
Definition room601 : Room := mkRoom 601 6 0 free.

(** ** Reference notions the properties are stated with *)

(** The travel times of all pairs of positions [i < j], in the order the two
    loops of [totalTravelTimeForRooms] visit them. *)
Fixpoint pairTimes (l : list Room) : list Z :=
  match l with
  | [] => []
  | a :: tl => map (travelTimeBetween a) tl ++ pairTimes tl
  end.

(** The choices of [k] positions of [l], each listed in position order, in
    lexicographic order of the chosen positions. *)
Fixpoint combinations (k : nat) (l : list Room) : list (list Room) :=
  match k, l with
  | O, _ => [[]]
  | S _, [] => []
  | S k', x :: rest => map (cons x) (combinations k' rest) ++ combinations k rest
  end.

(** [Subseq c l]: [c] keeps some positions of [l], in order. *)
Inductive Subseq {A : Type} : list A -> list A -> Prop :=
| Subseq_nil : forall l, Subseq [] l
| Subseq_take : forall x c l, Subseq c l -> Subseq (x :: c) (x :: l)
| Subseq_skip : forall x c l, Subseq c l -> Subseq c (x :: l).

(** Floor first, then position on the floor. *)
Definition lexLe (a b : Room) : Prop :=
  floor a < floor b \/ (floor a = floor b /\ indexOnFloor a <= indexOnFloor b).

(** The candidates of phase 1 in evaluation order: floor by floor, the
    windows of each floor left to right. *)
Definition windowsOf (sorted : list Room) (count : nat) : list (list Room) :=
  map (fun start => slice sorted start (start + count))
      (seq 0 (length sorted + 1 - count)).

Definition singleFloorCandidates (entries : list (Z * list Room)) (count : Z)
  : list (list Room) :=
  flat_map (fun e : Z * list Room =>
              let sorted := sortBy cmpIndex (snd e) in
              if Z.of_nat (length sorted) <? count then []
              else windowsOf sorted (Z.to_nat count))
           entries.

(** [m.get(f)], with the empty array for a missing key. *)
Fixpoint lookupFloor (f : Z) (m : list (Z * list Room)) : list Room :=
  match m with
  | [] => []
  | (k, v) :: tl => if k =? f then v else lookupFloor f tl
  end.

(** Same floor, position and number, whatever the status. *)
Definition sameLayout (r1 r2 : list Room) : Prop :=
  map (fun r => (id r, floor r, indexOnFloor r)) r1 =
  map (fun r => (id r, floor r, indexOnFloor r)) r2.

(** ** The page state and its event handlers (main.ts, lines 144-304)

    [renderApp] draws a state and installs three click handlers; each handler
    computes the next state from the state drawn and calls [renderApp] again.
    The model keeps the state, the handlers as functions from state to state,
    and the data [renderApp] lays out, without the HTML text.
    - [parseInt(input.value, 10)] is an integer or [NaN]: [option Z], [None]
      for [NaN].
    - [Math.random() < 0.45] is drawn once per room, in list order; the
      outcomes are a parameter of the handler, indexed by the position of the
      room. *)

Record AppState : Type := mkAppState {
  appRooms : list Room;               (* [state.rooms] *)
  lastBooking : option BookingResult;
  message : option String.string
}.

Definition msgInvalidCount : String.string :=
  "Please enter a valid room count between 1 and 5."%string.
Definition msgUnable : String.string :=
  "Unable to allocate the requested number of rooms with current availability."%string.
Definition msgRandom : String.string := "Random occupancy applied."%string.
Definition msgReset : String.string :=
  "Hotel has been reset to all rooms free."%string.

(** Lines 263-265: [result.rooms.some((br) => br.id === r.id)
    ? { ...r, status: 'booked' } : r]. *)
Definition markBooked (result : BookingResult) (r : Room) : Room :=
  if existsb (fun br => id br =? id r) (rooms result) then setStatus booked r
  else r.

(** Lines 244-271: [bookBtn.onclick]. *)
Definition onBookClick (s : AppState) (value : option Z) : AppState :=
  match value with
  | None => mkAppState (appRooms s) None (Some msgInvalidCount)
  | Some v =>
      if (v <? 1) || (v >? 5)
      then mkAppState (appRooms s) None (Some msgInvalidCount)
      else
        match allocateRooms (appRooms s) v with
        | None => mkAppState (appRooms s) None (Some msgUnable)
        | Some result =>
            let newRooms := map (markBooked result) (appRooms s) in
            mkAppState newRooms (Some result) None
        end
  end.

(** Lines 273-288: [randomBtn.onclick]; [shouldBook i] is the outcome of
    [Math.random() < 0.45] for the room at position [i]. *)
Definition onRandomClick (s : AppState) (shouldBook : nat -> bool) : AppState :=
  let newRooms :=
    map (fun ir : nat * Room =>
           setStatus (if shouldBook (fst ir) then booked else free) (snd ir))
        (combine (seq 0 (length (appRooms s))) (appRooms s)) in
  mkAppState newRooms None (Some msgRandom).

(** Lines 290-296: [resetBtn.onclick]. *)
Definition onResetClick (s : AppState) : AppState :=
  mkAppState buildHotelRooms None (Some msgReset).

(** Lines 299-304: the first render. *)
Definition initialState : AppState := mkAppState buildHotelRooms None None.

Inductive Event : Type :=
| BookClick (value : option Z)
| RandomClick (shouldBook : nat -> bool)
| ResetClick.

Definition handle (s : AppState) (e : Event) : AppState :=
  match e with
  | BookClick value => onBookClick s value
  | RandomClick shouldBook => onRandomClick s shouldBook
  | ResetClick => onResetClick s
  end.

(** The state after a sequence of clicks on the first page. *)
Definition run (events : list Event) : AppState :=
  fold_left handle events initialState.

(** [r.status === 'booked'] *)
Definition isBooked (r : Room) : bool :=
  match status r with
  | booked => true
  | _ => false
  end.

(** Line 150: the ids of [lastBooking?.rooms ?? []]; the [Set] is read only
    through [has]. *)
Definition bookedIds (s : AppState) : list Z :=
  match lastBooking s with
  | Some b => map id (rooms b)
  | None => []
  end.

(** Lines 221-224: the CSS classes of a room's cell. *)
Definition roomClasses (s : AppState) (room : Room) : list String.string :=
  ["room"%string]
  ++ (if isFree room then ["free"%string] else [])
  ++ (if isBooked room then ["booked"%string] else [])
  ++ (if existsb (Z.eqb (id room)) (bookedIds s) then ["selected"%string] else []).

(** Line 158: [(a, b) => b[0] - a[0]]. *)
Definition cmpFloorDesc (a b : Z * list Room) : Z := fst b - fst a.

(** Lines 152-158 and 211-213: the rows [renderApp] lays out, top floor
    first, each with its rooms sorted by position. *)
Definition floorsView (rs : list Room) : list (Z * list Room) :=
  map (fun e : Z * list Room => (fst e, sortBy cmpIndex (snd e)))
      (sortBy cmpFloorDesc (groupByFloor rs)).

(** What every page reached from the first one satisfies: the rooms are
    those of the fixed layout, each free or booked, the rooms highlighted as
    the last booking are booked, and a booking is never shown together with a
    message. *)
Definition pageInvariant (s : AppState) : Prop :=
  sameLayout (appRooms s) buildHotelRooms
  /\ Forall (fun r => status r = free \/ status r = booked) (appRooms s)
  /\ (forall r, In r (appRooms s) ->
                existsb (Z.eqb (id r)) (bookedIds s) = true ->
                status r = booked)
  /\ (forall res, lastBooking s = Some res -> message s = None).

(** * Properties *)

(** ** The travel-time metric *)

Lemma travelTimeBetween_sym (a b : Room) :
  travelTimeBetween a b = travelTimeBetween b a.
Proof. unfold travelTimeBetween. lia. Qed.

Lemma travelTimeBetween_nonneg (a b : Room) : 0 <= travelTimeBetween a b.
Proof. unfold travelTimeBetween. lia. Qed.

(** C7: the cost of a pair of rooms is twice the floor distance plus the
    position distance; it is symmetric, never negative, and zero for a room
    and itself. *)
Theorem travelTimeBetween_metric :
  forall a b : Room,
    travelTimeBetween a b =
      Z.abs (floor a - floor b) * 2 + Z.abs (indexOnFloor a - indexOnFloor b) * 1
    /\ travelTimeBetween a b = travelTimeBetween b a
    /\ 0 <= travelTimeBetween a b
    /\ travelTimeBetween a a = 0.
Proof.
  intros a b. repeat split.
  - apply travelTimeBetween_sym.
  - apply travelTimeBetween_nonneg.
  - unfold travelTimeBetween. lia.
Qed.

Lemma innerLoop_fold (a : Room) (rest : list Room) (best : option Z) :
  innerLoop a rest best = fold_left lowerTo (map (travelTimeBetween a) rest) best.
Proof.
  revert best. induction rest as [|b tl IH]; intros best; simpl; [reflexivity|].
  apply IH.
Qed.

Lemma outerLoop_fold (l : list Room) (best : option Z) :
  outerLoop l best = fold_left lowerTo (pairTimes l) best.
Proof.
  revert best. induction l as [|a tl IH]; intros best; simpl; [reflexivity|].
  rewrite fold_left_app, IH, innerLoop_fold. reflexivity.
Qed.

(** What a run of [lowerTo] leaves: the least of the start value and the
    values seen. *)
Lemma fold_lowerTo_Some (ts : list Z) (b : Z) :
  exists m, fold_left lowerTo ts (Some b) = Some m
            /\ m <= b /\ (forall t, In t ts -> m <= t)
            /\ (m = b \/ In m ts).
Proof.
  revert b. induction ts as [|t tl IH]; intros b; simpl.
  - exists b. repeat split; [lia | contradiction | now left].
  - destruct (Z.ltb_spec t b) as [Hlt|Hge].
    + destruct (IH t) as (m & Hm & Hle & Hall & Hin).
      exists m. repeat split; [assumption | lia | | ].
      * intros t' [<-|Ht']; [assumption | now apply Hall].
      * right. destruct Hin as [->|Hin]; [now left | now right].
    + destruct (IH b) as (m & Hm & Hle & Hall & Hin).
      exists m. repeat split; [assumption | assumption | | ].
      * intros t' [<-|Ht']; [lia | now apply Hall].
      * destruct Hin as [->|Hin]; [now left | right; now right].
Qed.

Lemma fold_lowerTo_None (t : Z) (ts : list Z) :
  exists m, fold_left lowerTo (t :: ts) None = Some m
            /\ (forall t', In t' (t :: ts) -> m <= t')
            /\ In m (t :: ts).
Proof.
  simpl. destruct (fold_lowerTo_Some ts t) as (m & Hm & Hle & Hall & Hin).
  exists m. repeat split; [assumption | | ].
  - intros t' [<-|Ht']; [assumption | now apply Hall].
  - destruct Hin as [->|Hin]; [now left | now right].
Qed.

Lemma pairTimes_In (l : list Room) (t : Z) :
  In t (pairTimes l) <->
  exists i j a b, (i < j)%nat /\ nth_error l i = Some a /\ nth_error l j = Some b
                  /\ t = travelTimeBetween a b.
Proof.
  revert t. induction l as [|x tl IH]; intros t; simpl.
  - split; [contradiction|].
    intros (i & j & a & b & _ & Hi & _). destruct i; discriminate.
  - rewrite in_app_iff, in_map_iff, IH. split.
    + intros [(b & <- & Hb) | (i & j & a & b & Hij & Hi & Hj & ->)].
      * apply In_nth_error in Hb. destruct Hb as (j & Hj).
        exists 0%nat, (S j), x, b. repeat split; [lia | assumption].
      * exists (S i), (S j), a, b. repeat split; [lia | assumption ..].
    + intros (i & j & a & b & Hij & Hi & Hj & ->).
      destruct j as [|j]; [lia|]. simpl in Hj.
      destruct i as [|i]; simpl in Hi.
      * injection Hi as <-. left. exists b. split; [reflexivity|].
        eapply nth_error_In; eassumption.
      * right. exists i, j, a, b. repeat split; [lia | assumption ..].
Qed.

Lemma pairTimes_nonempty (l : list Room) :
  (2 <= length l)%nat -> pairTimes l <> [].
Proof.
  destruct l as [|a [|b tl]]; simpl; try lia. intros _. discriminate.
Qed.

Lemma totalTravelTimeForRooms_short (l : list Room) :
  (length l <= 1)%nat -> totalTravelTimeForRooms l = 0.
Proof.
  intros H. unfold totalTravelTimeForRooms.
  apply Nat.leb_le in H. now rewrite H.
Qed.

Lemma totalTravelTimeForRooms_min (l : list Room) :
  (2 <= length l)%nat ->
  In (totalTravelTimeForRooms l) (pairTimes l)
  /\ forall t, In t (pairTimes l) -> totalTravelTimeForRooms l <= t.
Proof.
  intros H. unfold totalTravelTimeForRooms.
  destruct (Nat.leb_spec (length l) 1) as [Hle|_]; [lia|].
  rewrite outerLoop_fold.
  pose proof (pairTimes_nonempty l H) as Hne.
  destruct (pairTimes l) as [|t ts]; [congruence|].
  destruct (fold_lowerTo_None t ts) as (m & -> & Hall & Hin).
  split; assumption.
Qed.

Lemma totalTravelTimeForRooms_nonneg (l : list Room) :
  0 <= totalTravelTimeForRooms l.
Proof.
  destruct (Nat.le_gt_cases (length l) 1) as [Hs|Hl].
  - rewrite totalTravelTimeForRooms_short by assumption. lia.
  - destruct (totalTravelTimeForRooms_min l Hl) as [Hin _].
    apply pairTimes_In in Hin. destruct Hin as (i & j & a & b & _ & _ & _ & ->).
    apply travelTimeBetween_nonneg.
Qed.

(** C4: the travel time of fewer than two rooms is 0; of two or more rooms it
    is the travel time of some pair of distinct positions and at most the
    travel time of every such pair.  It is neither the sum nor the largest
    of the pairs' travel times. *)
Theorem totalTravelTimeForRooms_is_min_over_pairs :
  (forall l : list Room,
      (length l < 2)%nat -> totalTravelTimeForRooms l = 0)
  /\ (forall l : list Room,
      (2 <= length l)%nat ->
      (exists i j a b,
          (i < j)%nat /\ nth_error l i = Some a /\ nth_error l j = Some b
          /\ totalTravelTimeForRooms l = travelTimeBetween a b)
      /\ (forall i j a b,
          i <> j -> nth_error l i = Some a -> nth_error l j = Some b ->
          totalTravelTimeForRooms l <= travelTimeBetween a b))
  /\ (exists l : list Room,
        totalTravelTimeForRooms l <> fold_right Z.add 0 (pairTimes l)
        /\ totalTravelTimeForRooms l <> fold_right Z.max 0 (pairTimes l)).
Proof.
  split; [|split].
  - intros l H. apply totalTravelTimeForRooms_short. lia.
  - intros l H. destruct (totalTravelTimeForRooms_min l H) as [Hin Hall].
    split.
    + now apply pairTimes_In.
    + intros i j a b Hij Hi Hj.
      destruct (Nat.lt_total i j) as [Hlt|[Heq|Hgt]]; [|contradiction|].
      * apply Hall, pairTimes_In. exists i, j, a, b. now repeat split.
      * rewrite travelTimeBetween_sym.
        apply Hall, pairTimes_In. exists j, i, b, a. now repeat split.
  - exists [mkRoom 101 1 0 free; mkRoom 102 1 1 free; mkRoom 106 1 5 free].
    split; vm_compute; discriminate.
Qed.

Lemma totalTravelTimeForRooms_is_min_over_pairs_witness :
  totalTravelTimeForRooms [room510] = 0
  /\ totalTravelTimeForRooms [room510; room601; mkRoom 602 6 1 free]
     <= travelTimeBetween (mkRoom 602 6 1 free) room510.
Proof.
  split.
  - apply (proj1 totalTravelTimeForRooms_is_min_over_pairs). simpl. lia.
  - apply (proj2 (proj1 (proj2 totalTravelTimeForRooms_is_min_over_pairs)
                    [room510; room601; mkRoom 602 6 1 free]
                    ltac:(simpl; lia))
             2%nat 0%nat); [lia | reflexivity | reflexivity].
Defined.

(** ** The layout *)

(** C8: the layout has 97 rooms, all free, on floors 1 to 10: ten on each of
    floors 1-9 and seven on floor 10, numbered 1001-1007; every room number
    is floor*100 + position + 1 (which on floor 10 is 1001 + position); no
    room number occurs twice, and the positions on each floor are 0, 1, 2, ...
    without a gap. *)
Theorem buildHotelRooms_layout :
  length buildHotelRooms = 97%nat
  /\ Forall (fun r => status r = free) buildHotelRooms
  /\ Forall (fun r => 1 <= floor r <= 10) buildHotelRooms
  /\ Forall (fun f => length (filter (onFloor f) buildHotelRooms) = 10%nat)
            (upto 1 9)
  /\ Forall (fun r => id r = floor r * 100 + (indexOnFloor r + 1)) buildHotelRooms
  /\ map id (filter (onFloor 10) buildHotelRooms) =
     [1001; 1002; 1003; 1004; 1005; 1006; 1007]
  /\ NoDup (map id buildHotelRooms)
  /\ Forall (fun f =>
               map indexOnFloor (filter (onFloor f) buildHotelRooms) =
               upto 0 (length (filter (onFloor f) buildHotelRooms)))
            (upto 1 10).
Proof.
  assert (Hids : nodup Z.eq_dec (map id buildHotelRooms) = map id buildHotelRooms)
    by (vm_compute; reflexivity).
  split; [reflexivity|].
  split; [vm_compute; repeat constructor|].
  split; [vm_compute; repeat (constructor; [split; discriminate|]); constructor|].
  split.
  { change (upto 1 9) with [1; 2; 3; 4; 5; 6; 7; 8; 9].
    repeat (apply Forall_cons; [vm_compute; reflexivity|]). apply Forall_nil. }
  split; [vm_compute; repeat constructor|].
  split; [reflexivity|].
  split; [rewrite <- Hids; apply NoDup_nodup|].
  change (upto 1 10) with [1; 2; 3; 4; 5; 6; 7; 8; 9; 10].
  repeat (apply Forall_cons; [vm_compute; reflexivity|]). apply Forall_nil.
Qed.

(** ** Sub-sequences, slices and combinations *)

Lemma Subseq_refl {A : Type} (l : list A) : Subseq l l.
Proof. induction l; constructor; assumption. Qed.

Lemma Subseq_In {A : Type} (c l : list A) :
  Subseq c l -> forall x, In x c -> In x l.
Proof.
  induction 1 as [l | x c l _ IH | x c l _ IH]; intros y Hy.
  - contradiction.
  - destruct Hy as [<-|Hy]; [now left | right; now apply IH].
  - right. now apply IH.
Qed.

Lemma Subseq_NoDup {A : Type} (c l : list A) :
  Subseq c l -> NoDup l -> NoDup c.
Proof.
  induction 1 as [l | x c l Hs IH | x c l _ IH]; intros Hl.
  - constructor.
  - inversion Hl as [|? ? Hx Hl']; subst. constructor.
    + intros Hin. apply Hx. eapply Subseq_In; eassumption.
    + now apply IH.
  - inversion Hl; subst. now apply IH.
Qed.

Lemma Subseq_trans {A : Type} (a b c : list A) :
  Subseq a b -> Subseq b c -> Subseq a c.
Proof.
  intros Hab Hbc. revert a Hab.
  induction Hbc as [l | x b c _ IH | x b c _ IH]; intros a Hab.
  - inversion Hab; subst. constructor.
  - inversion Hab; subst; constructor; now apply IH.
  - constructor. now apply IH.
Qed.

Lemma Subseq_firstn {A : Type} (n : nat) (l : list A) : Subseq (firstn n l) l.
Proof.
  revert n. induction l as [|x l IH]; intros [|n]; simpl; constructor. apply IH.
Qed.

Lemma Subseq_skipn {A : Type} (n : nat) (l : list A) : Subseq (skipn n l) l.
Proof.
  revert n. induction l as [|x l IH]; intros [|n]; simpl.
  - constructor.
  - constructor.
  - apply Subseq_refl.
  - constructor. apply IH.
Qed.

Lemma Subseq_slice {A : Type} (l : list A) (s e : nat) : Subseq (slice l s e) l.
Proof.
  unfold slice. eapply Subseq_trans; [apply Subseq_firstn | apply Subseq_skipn].
Qed.

Lemma slice_length {A : Type} (l : list A) (s n : nat) :
  (s + n <= length l)%nat -> length (slice l s (s + n)) = n.
Proof.
  intros H. unfold slice. rewrite length_firstn, length_skipn. lia.
Qed.

Lemma slice_0 {A : Type} (l : list A) (n : nat) : slice l 0 n = firstn n l.
Proof. unfold slice. simpl. now rewrite Nat.sub_0_r. Qed.

Lemma combinations_In (k : nat) (l c : list Room) :
  In c (combinations k l) <-> Subseq c l /\ length c = k.
Proof.
  revert k c. induction l as [|x l IH]; intros [|k] c; simpl.
  - split.
    + intros [<-|[]]. split; [constructor | reflexivity].
    + intros [_ Hlen]. destruct c; [now left | discriminate].
  - split; [contradiction|]. intros [Hs Hlen]. inversion Hs; subst. discriminate.
  - split.
    + intros [<-|[]]. split; [constructor | reflexivity].
    + intros [_ Hlen]. destruct c; [now left | discriminate].
  - rewrite in_app_iff, in_map_iff. split.
    + intros [(c' & <- & Hc') | Hc].
      * apply IH in Hc'. destruct Hc' as [Hs Hlen]. split.
        -- now constructor.
        -- simpl. now rewrite Hlen.
      * apply (IH (S k)) in Hc. destruct Hc as [Hs Hlen]. split.
        -- now constructor.
        -- assumption.
    + intros [Hs Hlen]. inversion Hs; subst.
      * discriminate.
      * left. eexists. split; [reflexivity|]. apply IH. split; [assumption|].
        simpl in Hlen. lia.
      * right. apply (IH (S k)). now split.
Qed.

Lemma combinations_nonempty (k : nat) (l : list Room) :
  (k <= length l)%nat -> combinations k l <> [].
Proof.
  intros H Hnil.
  assert (Hin : In (firstn k l) (combinations k l)).
  { apply combinations_In. split; [apply Subseq_firstn|].
    rewrite length_firstn. lia. }
  rewrite Hnil in Hin. contradiction.
Qed.

(** ** The running best candidate *)

Lemma fold_keepBetter_Some (cands : list (list Room)) (b : BookingResult) :
  exists res, fold_left keepBetter cands (Some b) = Some res.
Proof.
  revert b. induction cands as [|c tl IH]; intros b; simpl.
  - now exists b.
  - destruct (totalTravelTimeForRooms c <? totalTravelTime b); apply IH.
Qed.

Lemma fold_keepBetter_nonempty (cands : list (list Room))
  (best : option BookingResult) :
  cands <> [] -> exists res, fold_left keepBetter cands best = Some res.
Proof.
  destruct cands as [|c tl]; [congruence|]. intros _. simpl.
  destruct best as [b|]; simpl.
  - destruct (totalTravelTimeForRooms c <? totalTravelTime b);
      apply fold_keepBetter_Some.
  - apply fold_keepBetter_Some.
Qed.

(** The result of a run of [keepBetter] is either the best it started with,
    which no candidate beat, or the first candidate with the least travel
    time, which beat the starting best. *)
Lemma fold_keepBetter_spec (cands : list (list Room))
  (best : option BookingResult) (res : BookingResult) :
  fold_left keepBetter cands best = Some res ->
  (best = Some res
   /\ forall c, In c cands -> totalTravelTime res <= totalTravelTimeForRooms c)
  \/ (exists pre post,
         cands = pre ++ rooms res :: post
         /\ totalTravelTime res = totalTravelTimeForRooms (rooms res)
         /\ (forall c, In c pre -> totalTravelTime res < totalTravelTimeForRooms c)
         /\ (forall c, In c post -> totalTravelTime res <= totalTravelTimeForRooms c)
         /\ (forall b, best = Some b -> totalTravelTime res < totalTravelTime b)).
Proof.
  revert best. induction cands as [|c tl IH]; intros best H; simpl in H.
  - left. split; [assumption | intros c []].
  - apply IH in H.
    destruct H as [[Hbest Hall] | (pre & post & Hc & Ht & Hpre & Hpost & Hb)].
    + destruct best as [b|]; simpl in Hbest.
      * destruct (Z.ltb_spec (totalTravelTimeForRooms c) (totalTravelTime b))
          as [Hlt|Hge].
        -- right. exists [], tl. injection Hbest as <-. simpl.
           repeat split; try assumption; try reflexivity.
           ++ intros c' [].
           ++ intros b' Hb'. injection Hb' as <-. assumption.
        -- left. split; [assumption|]. injection Hbest as <-.
           intros c' [<-|Hc']; [assumption | now apply Hall].
      * right. exists [], tl. injection Hbest as <-. simpl.
        repeat split; try assumption; try reflexivity.
        -- intros c' [].
        -- intros b' Hb'. discriminate.
    + right. exists (c :: pre), post. rewrite Hc. simpl.
      split; [reflexivity|]. split; [assumption|].
      destruct best as [b|]; simpl in Hb.
      * destruct (Z.ltb_spec (totalTravelTimeForRooms c) (totalTravelTime b))
          as [Hlt|Hge].
        -- specialize (Hb _ eq_refl). simpl in Hb. repeat split.
           ++ intros c' [<-|Hc']; [assumption | now apply Hpre].
           ++ assumption.
           ++ intros b' Hb'. injection Hb' as <-. lia.
        -- specialize (Hb _ eq_refl). repeat split.
           ++ intros c' [<-|Hc']; [lia | now apply Hpre].
           ++ assumption.
           ++ intros b' Hb'. injection Hb' as <-. assumption.
      * specialize (Hb _ eq_refl). simpl in Hb. repeat split.
        -- intros c' [<-|Hc']; [assumption | now apply Hpre].
        -- assumption.
        -- intros b' Hb'. discriminate.
Qed.

(** Started from nothing, the run returns the first candidate of least travel
    time, with that travel time. *)
Lemma fold_keepBetter_first_min (cands : list (list Room)) (res : BookingResult) :
  fold_left keepBetter cands None = Some res ->
  exists pre post,
    cands = pre ++ rooms res :: post
    /\ totalTravelTime res = totalTravelTimeForRooms (rooms res)
    /\ (forall c, In c pre -> totalTravelTime res < totalTravelTimeForRooms c)
    /\ (forall c, In c post -> totalTravelTime res <= totalTravelTimeForRooms c).
Proof.
  intros H. apply fold_keepBetter_spec in H.
  destruct H as [[Hbest _] | (pre & post & Hc & Ht & Hpre & Hpost & _)].
  - discriminate.
  - exists pre, post. repeat split; assumption.
Qed.

Lemma fold_keepBetter_None (cands : list (list Room)) :
  fold_left keepBetter cands None = None -> cands = [].
Proof.
  intros H. destruct cands as [|c tl]; [reflexivity|].
  destruct (fold_keepBetter_nonempty (c :: tl) None) as (res & Hres);
    congruence.
Qed.

(** ** The stable sort *)

Section StableSortFacts.
Context {A : Type} (cmp : A -> A -> Z).

Lemma insertBy_perm (x : A) (l : list A) :
  Permutation (insertBy cmp x l) (x :: l).
Proof.
  induction l as [|y t IH]; simpl.
  - apply Permutation_refl.
  - destruct (cmp x y <=? 0).
    + apply Permutation_refl.
    + rewrite IH. apply perm_swap.
Qed.

Lemma sortBy_perm (l : list A) : Permutation (sortBy cmp l) l.
Proof.
  induction l as [|x t IH]; simpl.
  - apply perm_nil.
  - rewrite insertBy_perm. now apply perm_skip.
Qed.

Lemma sortBy_length (l : list A) : length (sortBy cmp l) = length l.
Proof. apply Permutation_length, sortBy_perm. Qed.

Lemma sortBy_In (l : list A) (x : A) : In x (sortBy cmp l) <-> In x l.
Proof.
  split; apply Permutation_in; [|symmetry]; apply sortBy_perm.
Qed.

Lemma sortBy_NoDup (l : list A) : NoDup l -> NoDup (sortBy cmp l).
Proof.
  intros H. eapply Permutation_NoDup; [|exact H]. symmetry. apply sortBy_perm.
Qed.

Hypothesis cmp_total : forall a b, cmp a b <= 0 \/ cmp b a <= 0.
Hypothesis cmp_trans :
  forall a b c, cmp a b <= 0 -> cmp b c <= 0 -> cmp a c <= 0.

Lemma insertBy_sorted (x : A) (l : list A) :
  StronglySorted (fun a b => cmp a b <= 0) l ->
  StronglySorted (fun a b => cmp a b <= 0) (insertBy cmp x l).
Proof.
  induction 1 as [|y t Hs IH Hy]; simpl.
  - constructor; constructor.
  - destruct (Z.leb_spec (cmp x y) 0) as [Hle|Hgt].
    + constructor; [now constructor|]. constructor; [assumption|].
      eapply Forall_impl; [|exact Hy]. intros z Hz. eapply cmp_trans; eassumption.
    + constructor; [assumption|].
      eapply Permutation_Forall; [symmetry; apply insertBy_perm|].
      constructor; [|assumption].
      destruct (cmp_total x y); [lia | assumption].
Qed.

Lemma sortBy_sorted (l : list A) :
  StronglySorted (fun a b => cmp a b <= 0) (sortBy cmp l).
Proof.
  induction l as [|x t IH]; simpl.
  - constructor.
  - now apply insertBy_sorted.
Qed.
End StableSortFacts.

Lemma StronglySorted_impl {A : Type} (R R' : A -> A -> Prop) (l : list A) :
  (forall a b, R a b -> R' a b) -> StronglySorted R l -> StronglySorted R' l.
Proof.
  intros HR. induction 1 as [|x t _ IH Hx]; constructor; [assumption|].
  eapply Forall_impl; [|exact Hx]. intros y. apply HR.
Qed.

Lemma cmpFloorIndex_le (a b : Room) : cmpFloorIndex a b <= 0 <-> lexLe a b.
Proof.
  unfold cmpFloorIndex, lexLe. destruct (Z.eqb_spec (floor a) (floor b)); simpl; lia.
Qed.

Lemma sortBy_cmpIndex_sorted (l : list Room) :
  StronglySorted (fun a b => indexOnFloor a <= indexOnFloor b) (sortBy cmpIndex l).
Proof.
  eapply StronglySorted_impl; [|apply sortBy_sorted].
  - unfold cmpIndex. intros a b. lia.
  - unfold cmpIndex. intros a b. lia.
  - unfold cmpIndex. intros a b c. lia.
Qed.

Lemma sortBy_cmpFloorIndex_sorted (l : list Room) :
  StronglySorted lexLe (sortBy cmpFloorIndex l).
Proof.
  eapply StronglySorted_impl; [|apply sortBy_sorted].
  - intros a b. apply cmpFloorIndex_le.
  - intros a b. rewrite !cmpFloorIndex_le. unfold lexLe. lia.
  - intros a b c. rewrite !cmpFloorIndex_le. unfold lexLe. lia.
Qed.

(** ** The rooms grouped by floor *)

Lemma mapPush_keys_In (m : list (Z * list Room)) (r : Room) (f : Z) :
  In f (map fst (mapPush m r)) <-> f = floor r \/ In f (map fst m).
Proof.
  induction m as [|[k v] tl IH]; simpl.
  - intuition.
  - destruct (Z.eqb_spec k (floor r)) as [->|Hne]; simpl.
    + intuition.
    + rewrite IH. intuition.
Qed.

Lemma mapPush_keys_NoDup (m : list (Z * list Room)) (r : Room) :
  NoDup (map fst m) -> NoDup (map fst (mapPush m r)).
Proof.
  induction m as [|[k v] tl IH]; simpl; intros H.
  - constructor; [intros [] | constructor].
  - destruct (Z.eqb_spec k (floor r)) as [->|Hne]; simpl; [assumption|].
    inversion H as [|? ? Hk Htl]; subst. constructor; [|now apply IH].
    rewrite mapPush_keys_In. intros [->|Hin]; [congruence | contradiction].
Qed.

Lemma mapPush_lookup (m : list (Z * list Room)) (r : Room) (f : Z) :
  lookupFloor f (mapPush m r) =
  if onFloor f r then lookupFloor f m ++ [r] else lookupFloor f m.
Proof.
  unfold onFloor. induction m as [|[k v] tl IH]; simpl.
  - rewrite (Z.eqb_sym (floor r) f). now destruct (floor r =? f).
  - destruct (Z.eqb_spec k (floor r)) as [->|Hne]; simpl.
    + destruct (Z.eqb_spec (floor r) f); reflexivity.
    + destruct (Z.eqb_spec k f) as [->|Hkf].
      * destruct (Z.eqb_spec (floor r) f); [congruence | reflexivity].
      * apply IH.
Qed.

Lemma lookupFloor_In (m : list (Z * list Room)) (f : Z) (v : list Room) :
  NoDup (map fst m) -> In (f, v) m -> lookupFloor f m = v.
Proof.
  induction m as [|[k w] tl IH]; simpl; intros Hnd Hin; [contradiction|].
  inversion Hnd as [|? ? Hk Htl]; subst.
  destruct Hin as [Heq|Hin].
  - injection Heq as -> ->. now rewrite Z.eqb_refl.
  - destruct (Z.eqb_spec k f) as [->|Hne]; [|now apply IH].
    exfalso. apply Hk. apply (in_map fst) in Hin. exact Hin.
Qed.

Lemma lookupFloor_key (m : list (Z * list Room)) (f : Z) :
  In f (map fst m) -> In (f, lookupFloor f m) m.
Proof.
  induction m as [|[k w] tl IH]; simpl; [contradiction|].
  destruct (Z.eqb_spec k f) as [->|Hne].
  - intros _. now left.
  - intros [Hk|Hin]; [contradiction | right; now apply IH].
Qed.

Lemma groupByFloor_snoc (l : list Room) (r : Room) :
  groupByFloor (l ++ [r]) = mapPush (groupByFloor l) r.
Proof. unfold groupByFloor. now rewrite fold_left_app. Qed.

Lemma groupByFloor_keys_NoDup (l : list Room) : NoDup (map fst (groupByFloor l)).
Proof.
  induction l as [|r l IH] using rev_ind.
  - constructor.
  - rewrite groupByFloor_snoc. now apply mapPush_keys_NoDup.
Qed.

Lemma groupByFloor_keys_In (l : list Room) (f : Z) :
  In f (map fst (groupByFloor l)) <-> exists r, In r l /\ floor r = f.
Proof.
  induction l as [|r l IH] using rev_ind.
  - simpl. split; [contradiction | intros (r & [] & _)].
  - rewrite groupByFloor_snoc, mapPush_keys_In, IH. split.
    + intros [->|(r' & Hin & Hf)].
      * exists r. split; [apply in_or_app; right; now left | reflexivity].
      * exists r'. split; [apply in_or_app; now left | assumption].
    + intros (r' & Hin & Hf). apply in_app_or in Hin.
      destruct Hin as [Hin|[<-|[]]]; [right; now exists r' | now left].
Qed.

Lemma groupByFloor_lookup (l : list Room) (f : Z) :
  lookupFloor f (groupByFloor l) = filter (onFloor f) l.
Proof.
  induction l as [|r l IH] using rev_ind.
  - reflexivity.
  - rewrite groupByFloor_snoc, mapPush_lookup, filter_app, IH. simpl.
    destruct (onFloor f r); [reflexivity | now rewrite app_nil_r].
Qed.

(** Every entry of the map holds the rooms of its floor, in input order. *)
Lemma groupByFloor_entry (l : list Room) (f : Z) (v : list Room) :
  In (f, v) (groupByFloor l) -> v = filter (onFloor f) l.
Proof.
  intros Hin. rewrite <- groupByFloor_lookup. symmetry.
  apply lookupFloor_In; [apply groupByFloor_keys_NoDup | assumption].
Qed.

(** Every floor that has a room has its entry. *)
Lemma groupByFloor_has (l : list Room) (r : Room) :
  In r l -> In (floor r, filter (onFloor (floor r)) l) (groupByFloor l).
Proof.
  intros Hin. rewrite <- groupByFloor_lookup. apply lookupFloor_key.
  apply groupByFloor_keys_In. now exists r.
Qed.

Lemma fold_mapPush_head (l : list Room) (k : Z) (v : list Room)
  (tl : list (Z * list Room)) :
  exists v' tl', fold_left mapPush l ((k, v) :: tl) = (k, v') :: tl'.
Proof.
  revert v tl. induction l as [|r l IH]; intros v tl; simpl.
  - now exists v, tl.
  - destruct (k =? floor r); apply IH.
Qed.

(** The first entry of the map is the floor of the first room. *)
Lemma groupByFloor_head (r0 : Room) (l : list Room) :
  exists tl,
    groupByFloor (r0 :: l) =
    (floor r0, filter (onFloor (floor r0)) (r0 :: l)) :: tl.
Proof.
  destruct (fold_mapPush_head l (floor r0) [r0] []) as (v & tl & H).
  exists tl. unfold groupByFloor at 1. simpl fold_left. rewrite H.
  f_equal. f_equal. apply groupByFloor_entry.
  unfold groupByFloor. simpl fold_left. rewrite H. now left.
Qed.

(** ** Phase 1 as a run over its candidates *)

Lemma fold_left_map_arg {A B C : Type} (f : A -> B -> A) (g : C -> B)
  (l : list C) (a : A) :
  fold_left (fun acc x => f acc (g x)) l a = fold_left f (map g l) a.
Proof.
  revert a. induction l as [|x l IH]; intros a; simpl; [reflexivity | apply IH].
Qed.

Lemma slideWindows_fold (sorted : list Room) (n : nat)
  (best : option BookingResult) :
  slideWindows sorted n best = fold_left keepBetter (windowsOf sorted n) best.
Proof. unfold slideWindows, windowsOf. apply fold_left_map_arg. Qed.

Lemma singleFloorLoop_fold (entries : list (Z * list Room)) (count : Z)
  (best : option BookingResult) :
  singleFloorLoop entries count best =
  fold_left keepBetter (singleFloorCandidates entries count) best.
Proof.
  revert best. induction entries as [|[f v] tl IH]; intros best.
  - reflexivity.
  - unfold singleFloorCandidates. simpl. rewrite fold_left_app.
    fold (singleFloorCandidates tl count).
    destruct (Z.of_nat (length (sortBy cmpIndex v)) <? count); simpl.
    + apply IH.
    + rewrite IH, slideWindows_fold. reflexivity.
Qed.

Lemma singleFloorCandidates_cons (f : Z) (v : list Room)
  (tl : list (Z * list Room)) (count : Z) :
  singleFloorCandidates ((f, v) :: tl) count =
  (if Z.of_nat (length (sortBy cmpIndex v)) <? count then []
   else windowsOf (sortBy cmpIndex v) (Z.to_nat count))
  ++ singleFloorCandidates tl count.
Proof. reflexivity. Qed.

Lemma windowsOf_In (sorted : list Room) (n : nat) (c : list Room) :
  (n <= length sorted)%nat -> In c (windowsOf sorted n) ->
  Subseq c sorted /\ length c = n.
Proof.
  intros Hn Hin. unfold windowsOf in Hin. apply in_map_iff in Hin.
  destruct Hin as (s & <- & Hs). apply in_seq in Hs. split.
  - apply Subseq_slice.
  - apply slice_length. lia.
Qed.

Lemma windowsOf_first (sorted : list Room) (n : nat) :
  (n <= length sorted)%nat ->
  exists tl, windowsOf sorted n = firstn n sorted :: tl.
Proof.
  intros Hn. unfold windowsOf.
  replace (length sorted + 1 - n)%nat with (S (length sorted - n)) by lia.
  simpl. rewrite slice_0. eexists. reflexivity.
Qed.

(** Every candidate of phase 1 is a window of [count] rooms of one floor's
    free rooms, sorted by position. *)
Lemma singleFloorCandidates_In (fr : list Room) (count : Z) (c : list Room) :
  0 < count ->
  In c (singleFloorCandidates (groupByFloor fr) count) ->
  exists f,
    Subseq c (sortBy cmpIndex (filter (onFloor f) fr))
    /\ length c = Z.to_nat count
    /\ count <= Z.of_nat (length (filter (onFloor f) fr)).
Proof.
  intros Hpos Hin. unfold singleFloorCandidates in Hin.
  apply in_flat_map in Hin. destruct Hin as ([f v] & He & Hc). simpl in Hc.
  apply groupByFloor_entry in He. subst v. exists f.
  destruct (Z.ltb_spec (Z.of_nat (length (sortBy cmpIndex (filter (onFloor f) fr))))
              count) as [Hlt|Hge]; [contradiction|].
  rewrite sortBy_length in Hge.
  apply windowsOf_In in Hc; [|rewrite sortBy_length; lia].
  destruct Hc as [Hs Hlen]. repeat split; assumption.
Qed.

Lemma singleFloorCandidates_nonempty (fr : list Room) (count f : Z) :
  0 < count -> count <= Z.of_nat (length (filter (onFloor f) fr)) ->
  singleFloorCandidates (groupByFloor fr) count <> [].
Proof.
  intros Hpos Hf Hnil.
  destruct (filter (onFloor f) fr) as [|r tl] eqn:Hfil; [simpl in Hf; lia|].
  assert (Hr : In r (filter (onFloor f) fr)) by (rewrite Hfil; now left).
  apply filter_In in Hr. destruct Hr as [Hr Hfl].
  unfold onFloor in Hfl. apply Z.eqb_eq in Hfl.
  pose proof (groupByFloor_has fr r Hr) as He. rewrite Hfl, Hfil in He.
  assert (Hin : In (firstn (Z.to_nat count) (sortBy cmpIndex (r :: tl)))
                   (singleFloorCandidates (groupByFloor fr) count)).
  { unfold singleFloorCandidates. apply in_flat_map.
    exists (f, r :: tl). split; [assumption|]. cbv beta zeta. unfold snd.
    destruct (Z.ltb_spec (Z.of_nat (length (sortBy cmpIndex (r :: tl)))) count)
      as [Hlt|Hge]; [rewrite sortBy_length in Hlt; lia|].
    destruct (windowsOf_first (sortBy cmpIndex (r :: tl)) (Z.to_nat count))
      as (rest & ->); [lia | now left]. }
  rewrite Hnil in Hin. contradiction.
Qed.

Lemma singleFloorCandidates_empty (fr : list Room) (count : Z) :
  (forall f, Z.of_nat (length (filter (onFloor f) fr)) < count) ->
  singleFloorCandidates (groupByFloor fr) count = [].
Proof.
  intros Hall.
  destruct (singleFloorCandidates (groupByFloor fr) count) as [|c tl] eqn:Hc;
    [reflexivity|].
  assert (Hin : In c (singleFloorCandidates (groupByFloor fr) count))
    by (rewrite Hc; now left).
  unfold singleFloorCandidates in Hin. apply in_flat_map in Hin.
  destruct Hin as ([f v] & He & Hin). simpl in Hin.
  apply groupByFloor_entry in He. subst v.
  rewrite sortBy_length in Hin. specialize (Hall f).
  apply Z.ltb_lt in Hall. rewrite Hall in Hin. contradiction.
Qed.

(** ** Phase 2 as a run over the combinations *)

Lemma backtrack_unfold (count : Z) (pool chosen : list Room)
  (best : option BookingResult) :
  backtrack count pool chosen best =
  if Z.of_nat (length chosen) =? count then keepBetter best chosen
  else
    (fix loop (p : list Room) (b : option BookingResult) {struct p}
       : option BookingResult :=
       match p with
       | [] => b
       | x :: rest => loop rest (backtrack count rest (chosen ++ [x]) b)
       end) pool best.
Proof. destruct pool; reflexivity. Qed.

Lemma backtrack_cons (count : Z) (x : Room) (rest chosen : list Room)
  (best : option BookingResult) :
  Z.of_nat (length chosen) <> count ->
  backtrack count (x :: rest) chosen best =
  backtrack count rest chosen (backtrack count rest (chosen ++ [x]) best).
Proof.
  intros Hne. apply Z.eqb_neq in Hne.
  rewrite (backtrack_unfold count (x :: rest) chosen).
  rewrite (backtrack_unfold count rest chosen). rewrite Hne. reflexivity.
Qed.

(** The backtracking search visits the combinations of the pool in
    lexicographic order of positions and applies [keepBetter] to each. *)
Lemma backtrack_fold (count : Z) (pool : list Room) :
  forall (chosen : list Room) (best : option BookingResult) (k : nat),
    Z.of_nat (length chosen) + Z.of_nat k = count ->
    backtrack count pool chosen best =
    fold_left keepBetter (map (app chosen) (combinations k pool)) best.
Proof.
  induction pool as [|x rest IH]; intros chosen best [|k] Hk.
  - rewrite backtrack_unfold.
    replace (Z.of_nat (length chosen) =? count) with true
      by (symmetry; apply Z.eqb_eq; lia).
    simpl. now rewrite app_nil_r.
  - rewrite backtrack_unfold.
    replace (Z.of_nat (length chosen) =? count) with false
      by (symmetry; apply Z.eqb_neq; lia).
    reflexivity.
  - rewrite backtrack_unfold.
    replace (Z.of_nat (length chosen) =? count) with true
      by (symmetry; apply Z.eqb_eq; lia).
    simpl. now rewrite app_nil_r.
  - rewrite backtrack_cons by lia.
    rewrite (IH (chosen ++ [x]) best k) by (rewrite length_app; simpl; lia).
    rewrite (IH chosen _ (S k)) by assumption.
    simpl combinations. rewrite map_app, map_map, fold_left_app.
    f_equal. f_equal. apply map_ext. intros c. now rewrite <- app_assoc.
Qed.

(** ** The allocator *)

Lemma firstn_min_length {A : Type} (l : list A) (n : nat) :
  firstn (Nat.min (length l) n) l = firstn n l.
Proof.
  destruct (Nat.le_gt_cases n (length l)) as [Hle|Hgt].
  - now rewrite Nat.min_r.
  - rewrite Nat.min_l by lia. rewrite firstn_all, firstn_all2 by lia. reflexivity.
Qed.

Lemma NoDup_app_disjoint {A : Type} (l1 l2 : list A) (a : A) :
  NoDup (l1 ++ l2) -> In a l1 -> ~ In a l2.
Proof.
  induction l1 as [|x l1 IH]; simpl; intros Hnd Hin; [contradiction|].
  inversion Hnd as [|? ? Hx Hnd']; subst.
  destruct Hin as [->|Hin]; [|now apply IH].
  intros Ha. apply Hx. apply in_or_app. now right.
Qed.

(** The two guards of lines 74 and 77. *)
Lemma allocateRooms_rejects (rs : list Room) (count : Z) :
  count <= 0 \/ count > 5 \/ Z.of_nat (length (filter isFree rs)) < count ->
  allocateRooms rs count = None.
Proof.
  intros H. unfold allocateRooms. rewrite Z.gtb_ltb.
  destruct (Z.leb_spec count 0) as [Hle|Hpos]; [reflexivity|].
  destruct (Z.ltb_spec 5 count) as [Hbig|Hsmall]; [reflexivity|]. simpl.
  destruct (Z.ltb_spec (Z.of_nat (length (filter isFree rs))) count)
    as [Hfew|Henough]; [reflexivity | lia].
Qed.

Lemma allocateRooms_Some_guards (rs : list Room) (count : Z)
  (res : BookingResult) :
  allocateRooms rs count = Some res ->
  1 <= count <= 5 /\ count <= Z.of_nat (length (filter isFree rs)).
Proof.
  intros H.
  destruct (Z.le_gt_cases count 0) as [Hle|Hpos];
    [rewrite allocateRooms_rejects in H by lia; discriminate|].
  destruct (Z.lt_ge_cases 5 count) as [Hbig|Hsmall];
    [rewrite allocateRooms_rejects in H by lia; discriminate|].
  destruct (Z.lt_ge_cases (Z.of_nat (length (filter isFree rs))) count)
    as [Hfew|Henough];
    [rewrite allocateRooms_rejects in H by lia; discriminate|].
  lia.
Qed.

(** Past the guards the allocator is the first cheapest window of phase 1, or,
    when phase 1 has no window, the first cheapest combination of the pool. *)
Lemma allocateRooms_guarded (rs : list Room) (count : Z) :
  1 <= count <= 5 -> count <= Z.of_nat (length (filter isFree rs)) ->
  allocateRooms rs count =
  match fold_left keepBetter
          (singleFloorCandidates (groupByFloor (filter isFree rs)) count) None
  with
  | Some b => Some b
  | None =>
      fold_left keepBetter
        (combinations (Z.to_nat count)
           (firstn 20 (sortBy cmpFloorIndex (filter isFree rs))))
        None
  end.
Proof.
  intros Hc Hf. unfold allocateRooms. rewrite Z.gtb_ltb.
  replace (count <=? 0) with false by (symmetry; apply Z.leb_gt; lia).
  replace (5 <? count) with false by (symmetry; apply Z.ltb_ge; lia).
  replace (Z.of_nat (length (filter isFree rs)) <? count) with false
    by (symmetry; apply Z.ltb_ge; lia).
  cbv zeta. simpl orb. cbv iota. rewrite singleFloorLoop_fold.
  destruct (fold_left keepBetter
              (singleFloorCandidates (groupByFloor (filter isFree rs)) count)
              None); [reflexivity|].
  rewrite slice_0.
  rewrite <- (sortBy_length cmpFloorIndex (filter isFree rs)) at 1.
  rewrite firstn_min_length.
  rewrite (backtrack_fold count _ [] None (Z.to_nat count)) by (simpl; lia).
  rewrite (map_ext (app []) (fun c => c)) by reflexivity.
  now rewrite map_id.
Qed.

(** C2: the allocator returns no result when the count is at most 0, when it
    is greater than 5, and when fewer rooms than the count are free; so a
    count of 0 and a count of 6 give no result whatever the rooms are. *)
Theorem allocateRooms_no_result :
  forall (rs : list Room) (count : Z),
    (count <= 0 \/ count > 5 \/ Z.of_nat (length (filter isFree rs)) < count ->
     allocateRooms rs count = None)
    /\ allocateRooms rs 0 = None
    /\ allocateRooms rs 6 = None.
Proof.
  intros rs count. split; [apply allocateRooms_rejects|].
  split; reflexivity.
Qed.

Lemma allocateRooms_no_result_witness :
  (0 <= 0 /\ allocateRooms buildHotelRooms 0 = None)
  /\ (6 > 5 /\ allocateRooms buildHotelRooms 6 = None)
  /\ (Z.of_nat (length (filter isFree (bookedExcept [510; 601]))) < 3
      /\ allocateRooms (bookedExcept [510; 601]) 3 = None).
Proof.
  split; [|split].
  - split; [lia|].
    apply (proj1 (allocateRooms_no_result buildHotelRooms 0)). left. lia.
  - split; [lia|].
    apply (proj1 (allocateRooms_no_result buildHotelRooms 6)). right. left. lia.
  - assert (H : Z.of_nat (length (filter isFree (bookedExcept [510; 601]))) < 3)
      by (vm_compute; reflexivity).
    split; [exact H|].
    apply (proj1 (allocateRooms_no_result (bookedExcept [510; 601]) 3)).
    right. right. exact H.
Defined.

(** C9: the travel time a result reports is the travel time of its rooms, in
    both phases. *)
Theorem allocateRooms_time_consistent :
  forall (rs : list Room) (count : Z) (res : BookingResult),
    allocateRooms rs count = Some res ->
    totalTravelTime res = totalTravelTimeForRooms (rooms res).
Proof.
  intros rs count res H.
  destruct (allocateRooms_Some_guards _ _ _ H) as [Hc Hf].
  rewrite allocateRooms_guarded in H by assumption.
  destruct (fold_left keepBetter
              (singleFloorCandidates (groupByFloor (filter isFree rs)) count)
              None) as [b|] eqn:Hp1.
  - injection H as <-. apply fold_keepBetter_first_min in Hp1.
    destruct Hp1 as (pre & post & _ & Ht & _). exact Ht.
  - apply fold_keepBetter_first_min in H.
    destruct H as (pre & post & _ & Ht & _). exact Ht.
Qed.

Lemma allocateRooms_time_consistent_witness :
  totalTravelTime (mkBookingResult [room510; room601] 11) =
  totalTravelTimeForRooms (rooms (mkBookingResult [room510; room601] 11)).
Proof.
  apply (allocateRooms_time_consistent (bookedExcept [510; 601]) 2).
  vm_compute. reflexivity.
Defined.

Lemma filter_isFree_In (rs : list Room) (r : Room) :
  In r (filter isFree rs) -> In r rs /\ status r = free.
Proof.
  intros H. apply filter_In in H. destruct H as [Hin Hf]. split; [assumption|].
  unfold isFree in Hf. destruct (status r); [reflexivity | discriminate ..].
Qed.

(** A window chosen by phase 1: its size, its floor, where its rooms come
    from, and that it repeats no room unless the input does. *)
Lemma singleFloorCandidates_shape (fr : list Room) (count : Z) (c : list Room) :
  0 < count ->
  In c (singleFloorCandidates (groupByFloor fr) count) ->
  length c = Z.to_nat count
  /\ (exists f, forall r, In r c -> floor r = f)
  /\ (forall r, In r c -> In r fr)
  /\ (NoDup fr -> NoDup c).
Proof.
  intros Hpos Hin.
  destruct (singleFloorCandidates_In fr count c Hpos Hin) as (f & Hs & Hlen & _).
  assert (Hmem : forall r, In r c -> In r fr /\ floor r = f).
  { intros r Hr. apply (Subseq_In _ _ Hs) in Hr. apply sortBy_In in Hr.
    apply filter_In in Hr. destruct Hr as [Hr Hf]. split; [assumption|].
    unfold onFloor in Hf. now apply Z.eqb_eq in Hf. }
  split; [assumption|]. split; [|split].
  - exists f. intros r Hr. now apply Hmem.
  - intros r Hr. now apply Hmem.
  - intros Hnd. eapply Subseq_NoDup; [exact Hs|].
    apply sortBy_NoDup. now apply NoDup_filter.
Qed.

(** A combination chosen by phase 2. *)
Lemma poolCombinations_shape (fr : list Room) (n : nat) (c : list Room) :
  In c (combinations n (firstn 20 (sortBy cmpFloorIndex fr))) ->
  length c = n
  /\ (forall r, In r c -> In r fr)
  /\ (NoDup fr -> NoDup c).
Proof.
  intros Hin. apply combinations_In in Hin. destruct Hin as [Hs Hlen].
  assert (Hs' : Subseq c (sortBy cmpFloorIndex fr))
    by (eapply Subseq_trans; [exact Hs | apply Subseq_firstn]).
  split; [assumption|]. split.
  - intros r Hr. apply (Subseq_In _ _ Hs') in Hr. now apply sortBy_In in Hr.
  - intros Hnd. eapply Subseq_NoDup; [exact Hs'|]. now apply sortBy_NoDup.
Qed.

(** C3, amended: for a count from 1 to 5, when some floor has at least
    [count] free rooms the result is the best window of phase 1, phase 2 is
    not consulted, and all rooms of the result are on one floor. *)
Theorem allocateRooms_single_floor_first :
  forall (rs : list Room) (count f : Z),
    1 <= count <= 5 ->
    count <= Z.of_nat (length (filter (onFloor f) (filter isFree rs))) ->
    exists res,
      allocateRooms rs count = Some res
      /\ singleFloorLoop (groupByFloor (filter isFree rs)) count None = Some res
      /\ exists g, forall r, In r (rooms res) -> floor r = g.
Proof.
  intros rs count f Hc Hf.
  assert (Hfree : count <= Z.of_nat (length (filter isFree rs))).
  { pose proof (filter_length_le (onFloor f) (filter isFree rs)). lia. }
  rewrite allocateRooms_guarded by assumption. rewrite singleFloorLoop_fold.
  destruct (fold_keepBetter_nonempty
              (singleFloorCandidates (groupByFloor (filter isFree rs)) count) None)
    as (res & Hres).
  { apply (singleFloorCandidates_nonempty _ _ f); [lia | assumption]. }
  rewrite Hres. exists res. split; [reflexivity|]. split; [reflexivity|].
  apply fold_keepBetter_first_min in Hres.
  destruct Hres as (pre & post & Hcands & _).
  assert (Hin : In (rooms res)
                   (singleFloorCandidates (groupByFloor (filter isFree rs)) count))
    by (rewrite Hcands; apply in_elt).
  apply singleFloorCandidates_shape in Hin; [|lia].
  destruct Hin as (_ & Hfloor & _). exact Hfloor.
Qed.

Lemma allocateRooms_single_floor_first_witness :
  exists res,
    allocateRooms (bookedExcept [301; 302; 303; 304; 510]) 2 = Some res
    /\ singleFloorLoop
         (groupByFloor (filter isFree (bookedExcept [301; 302; 303; 304; 510])))
         2 None = Some res
    /\ exists g, forall r, In r (rooms res) -> floor r = g.
Proof.
  apply (allocateRooms_single_floor_first
           (bookedExcept [301; 302; 303; 304; 510]) 2 3).
  - lia.
  - vm_compute. discriminate.
Defined.

(** C3 as stated fails outside the range of counts: every floor of the
    untouched hotel has at least six free rooms, and a request for six rooms
    gets no result. *)
Lemma allocateRooms_six_rooms_one_floor :
  6 <= Z.of_nat (length (filter (onFloor 1) (filter isFree buildHotelRooms)))
  /\ allocateRooms buildHotelRooms 6 = None.
Proof.
  split; [vm_compute; discriminate | reflexivity].
Qed.

(** Rooms on pairwise different floors: no floor has two of them. *)
Lemma filter_onFloor_distinct_floors (fr : list Room) (f : Z) :
  NoDup (map floor fr) -> (length (filter (onFloor f) fr) <= 1)%nat.
Proof.
  induction fr as [|x fr IH]; simpl; intros Hnd; [lia|].
  inversion Hnd as [|? ? Hx Hnd']; subst. specialize (IH Hnd').
  unfold onFloor at 1. destruct (Z.eqb_spec (floor x) f) as [<-|Hne]; [|lia].
  assert (Hnone : filter (onFloor (floor x)) fr = []).
  { destruct (filter (onFloor (floor x)) fr) as [|y tl] eqn:Hfil; [reflexivity|].
    exfalso. apply Hx.
    assert (Hy : In y (filter (onFloor (floor x)) fr)) by (rewrite Hfil; now left).
    apply filter_In in Hy. destruct Hy as [Hy Hfl].
    unfold onFloor in Hfl. apply Z.eqb_eq in Hfl. rewrite <- Hfl.
    now apply in_map. }
  rewrite Hnone. simpl. lia.
Qed.

(** C6: when the guards pass and no floor has [count] free rooms, phase 1
    finds nothing and the result is that of the backtracking search over the
    pool, the first 20 free rooms in (floor, position) order.  The search
    visits the combinations of [count] rooms of the pool in lexicographic
    order of positions; the result is the first one of least travel time: it
    comes before every other combination of the same travel time, and no
    choice of [count] rooms of the pool has a smaller one.  Its rooms are in
    the pool, so a free room after the first 20 is never in it. *)
Theorem allocateRooms_cross_floor :
  forall (rs : list Room) (count : Z),
    1 <= count <= 5 ->
    count <= Z.of_nat (length (filter isFree rs)) ->
    (forall f,
        Z.of_nat (length (filter (onFloor f) (filter isFree rs))) < count) ->
    let sorted := sortBy cmpFloorIndex (filter isFree rs) in
    let pool := firstn 20 sorted in
    Permutation sorted (filter isFree rs)
    /\ StronglySorted lexLe sorted
    /\ singleFloorLoop (groupByFloor (filter isFree rs)) count None = None
    /\ allocateRooms rs count = backtrack count pool [] None
    /\ (forall best,
          backtrack count pool [] best =
          fold_left keepBetter (combinations (Z.to_nat count) pool) best)
    /\ exists res pre post,
        allocateRooms rs count = Some res
        /\ combinations (Z.to_nat count) pool = pre ++ rooms res :: post
        /\ totalTravelTime res = totalTravelTimeForRooms (rooms res)
        /\ (forall c, In c pre ->
                      totalTravelTime res < totalTravelTimeForRooms c)
        /\ (forall c, In c post ->
                      totalTravelTime res <= totalTravelTimeForRooms c)
        /\ (forall c, Subseq c pool -> length c = Z.to_nat count ->
                      totalTravelTime res <= totalTravelTimeForRooms c)
        /\ Subseq (rooms res) pool
        /\ (NoDup (filter isFree rs) ->
            forall r, In r (skipn 20 sorted) -> ~ In r (rooms res)).
Proof.
  intros rs count Hc Hf Hfloors sorted pool.
  assert (Hnone : singleFloorCandidates (groupByFloor (filter isFree rs)) count = [])
    by now apply singleFloorCandidates_empty.
  assert (Halloc : allocateRooms rs count =
                   fold_left keepBetter (combinations (Z.to_nat count) pool) None).
  { rewrite allocateRooms_guarded by assumption. now rewrite Hnone. }
  split; [apply sortBy_perm|]. split; [apply sortBy_cmpFloorIndex_sorted|].
  split; [rewrite singleFloorLoop_fold, Hnone; reflexivity|].
  assert (Hsearch : forall best,
             backtrack count pool [] best =
             fold_left keepBetter (combinations (Z.to_nat count) pool) best).
  { intros best.
    rewrite (backtrack_fold count pool [] best (Z.to_nat count)) by (simpl; lia).
    rewrite (map_ext (app []) (fun c => c)) by reflexivity.
    now rewrite map_id. }
  split; [now rewrite Halloc, Hsearch|]. split; [exact Hsearch|].
  destruct (fold_keepBetter_nonempty (combinations (Z.to_nat count) pool) None)
    as (res & Hres).
  { apply combinations_nonempty. unfold pool, sorted.
    rewrite length_firstn, sortBy_length. lia. }
  pose proof (fold_keepBetter_first_min _ _ Hres)
    as (pre & post & Hcands & Ht & Hpre & Hpost).
  assert (Hin : In (rooms res) (combinations (Z.to_nat count) pool))
    by (rewrite Hcands; apply in_elt).
  apply combinations_In in Hin. destruct Hin as [Hsub Hlen].
  exists res, pre, post.
  split; [now rewrite Halloc|]. split; [assumption|]. split; [assumption|].
  split; [assumption|]. split; [assumption|]. split; [|split; [assumption|]].
  - intros c Hs Hl.
    assert (Hc' : In c (combinations (Z.to_nat count) pool))
      by (apply combinations_In; now split).
    rewrite Hcands in Hc'. apply in_app_or in Hc'.
    destruct Hc' as [Hc'|[<-|Hc']].
    + apply Z.lt_le_incl. now apply Hpre.
    + lia.
    + now apply Hpost.
  - intros Hnd r Hr Hres'.
    assert (Hsorted : NoDup (firstn 20 sorted ++ skipn 20 sorted)).
    { rewrite firstn_skipn. now apply sortBy_NoDup. }
    apply (NoDup_app_disjoint _ _ r Hsorted); [|assumption].
    eapply Subseq_In; eassumption.
Qed.

Lemma allocateRooms_cross_floor_witness :
  let rs := bookedExcept [101; 205; 309; 401; 502; 603; 707; 801; 910; 1004] in
  let sorted := sortBy cmpFloorIndex (filter isFree rs) in
  let pool := firstn 20 sorted in
  Permutation sorted (filter isFree rs)
  /\ StronglySorted lexLe sorted
  /\ singleFloorLoop (groupByFloor (filter isFree rs)) 2 None = None
  /\ allocateRooms rs 2 = backtrack 2 pool [] None
  /\ (forall best,
        backtrack 2 pool [] best =
        fold_left keepBetter (combinations (Z.to_nat 2) pool) best)
  /\ exists res pre post,
      allocateRooms rs 2 = Some res
      /\ combinations (Z.to_nat 2) pool = pre ++ rooms res :: post
      /\ totalTravelTime res = totalTravelTimeForRooms (rooms res)
      /\ (forall c, In c pre -> totalTravelTime res < totalTravelTimeForRooms c)
      /\ (forall c, In c post -> totalTravelTime res <= totalTravelTimeForRooms c)
      /\ (forall c, Subseq c pool -> length c = Z.to_nat 2 ->
                    totalTravelTime res <= totalTravelTimeForRooms c)
      /\ Subseq (rooms res) pool
      /\ (NoDup (filter isFree rs) ->
          forall r, In r (skipn 20 sorted) -> ~ In r (rooms res)).
Proof.
  apply (allocateRooms_cross_floor
           (bookedExcept [101; 205; 309; 401; 502; 603; 707; 801; 910; 1004]) 2).
  - lia.
  - vm_compute. discriminate.
  - intros f.
    pose proof (filter_onFloor_distinct_floors
                  (filter isFree
                     (bookedExcept
                        [101; 205; 309; 401; 502; 603; 707; 801; 910; 1004]))
                  f) as H.
    assert (Hnd : NoDup (map floor
                           (filter isFree
                              (bookedExcept
                                 [101; 205; 309; 401; 502; 603; 707; 801; 910;
                                  1004])))).
    { vm_compute. repeat (constructor; [simpl; intuition discriminate|]).
      constructor. }
    specialize (H Hnd). lia.
Defined.

(** ** A request for one room *)

Lemma find_filter_head {A : Type} (f : A -> bool) (l : list A) (x : A) :
  find f l = Some x -> exists rest, filter f l = x :: rest.
Proof.
  induction l as [|y l IH]; simpl; [discriminate|].
  destruct (f y).
  - intros H. injection H as <-. eexists. reflexivity.
  - exact IH.
Qed.

Lemma fold_keepBetter_zero (cands : list (list Room)) (b : BookingResult) :
  totalTravelTime b <= 0 -> fold_left keepBetter cands (Some b) = Some b.
Proof.
  intros Hb. induction cands as [|c tl IH]; simpl; [reflexivity|].
  pose proof (totalTravelTimeForRooms_nonneg c) as Hc.
  destruct (Z.ltb_spec (totalTravelTimeForRooms c) (totalTravelTime b));
    [lia | exact IH].
Qed.

(** With one room asked for, the first window of the first floor met wins:
    every window costs 0. *)
Lemma allocateRooms_one_first_window (rs : list Room) (r0 : Room)
  (rest : list Room) :
  filter isFree rs = r0 :: rest ->
  exists s0 stl,
    sortBy cmpIndex (filter (onFloor (floor r0)) (r0 :: rest)) = s0 :: stl
    /\ allocateRooms rs 1 = Some (mkBookingResult [s0] 0).
Proof.
  intros Hfree.
  assert (Hlen : (1 <= length (sortBy cmpIndex
                                 (filter (onFloor (floor r0)) (r0 :: rest))))%nat).
  { rewrite sortBy_length. simpl. unfold onFloor at 1. rewrite Z.eqb_refl.
    simpl. lia. }
  destruct (sortBy cmpIndex (filter (onFloor (floor r0)) (r0 :: rest)))
    as [|s0 stl] eqn:Hsorted; [simpl in Hlen; lia|].
  exists s0, stl. split; [reflexivity|].
  rewrite allocateRooms_guarded; [|lia | rewrite Hfree; simpl length; lia].
  rewrite Hfree. destruct (groupByFloor_head r0 rest) as (tl & ->).
  rewrite singleFloorCandidates_cons. rewrite Hsorted.
  replace (Z.of_nat (length (s0 :: stl)) <? 1) with false
    by (symmetry; apply Z.ltb_ge; simpl length; lia).
  change (Z.to_nat 1) with 1%nat.
  destruct (windowsOf_first (s0 :: stl) 1) as (wtl & ->); [simpl; lia|].
  change (firstn 1 (s0 :: stl)) with [s0].
  rewrite <- app_comm_cons. cbn [fold_left keepBetter].
  rewrite fold_keepBetter_zero by (vm_compute; discriminate). reflexivity.
Qed.

Lemma first_free_lowest_floor (rs : list Room) (r0 : Room) :
  StronglySorted Z.le (map floor rs) -> find isFree rs = Some r0 ->
  forall r, In r rs -> isFree r = true -> floor r0 <= floor r.
Proof.
  induction rs as [|x rs IH]; simpl; intros Hs Hfind r Hin Hr; [contradiction|].
  inversion Hs as [|? ? Hs' Hx]; subst.
  destruct (isFree x) eqn:Hfx.
  - injection Hfind as <-. destruct Hin as [<-|Hin]; [lia|].
    rewrite Forall_forall in Hx. apply Hx. now apply in_map.
  - destruct Hin as [<-|Hin]; [congruence|]. now apply IH.
Qed.

Lemma buildHotelRooms_floors_sorted :
  StronglySorted Z.le (map floor buildHotelRooms).
Proof.
  apply Sorted_StronglySorted; [exact Z.le_trans|].
  vm_compute. repeat (constructor; [|constructor; discriminate]).
  repeat constructor.
Qed.

Lemma sameLayout_floors (r1 r2 : list Room) :
  sameLayout r1 r2 -> map floor r1 = map floor r2.
Proof.
  unfold sameLayout. intros H.
  apply (f_equal (map (fun t : Z * Z * Z => snd (fst t)))) in H.
  rewrite !map_map in H. exact H.
Qed.

(** C10: when some room is free, a request for one room returns exactly one
    room with travel time 0: a free room on the floor of the first free room
    of the list, and one of least position among the free rooms of that
    floor.  When the list is in the order of [buildHotelRooms] it is least in
    (floor, position) among all free rooms. *)
Theorem allocateRooms_one_room :
  forall (rs : list Room) (r0 : Room),
    find isFree rs = Some r0 ->
    exists r,
      allocateRooms rs 1 = Some (mkBookingResult [r] 0)
      /\ In r rs /\ status r = free /\ floor r = floor r0
      /\ (forall r', In r' rs -> status r' = free -> floor r' = floor r0 ->
                     indexOnFloor r <= indexOnFloor r')
      /\ (sameLayout rs buildHotelRooms ->
          forall r', In r' rs -> status r' = free -> lexLe r r').
Proof.
  intros rs r0 Hfind.
  destruct (find_filter_head _ _ _ Hfind) as (rest & Hfree).
  destruct (allocateRooms_one_first_window rs r0 rest Hfree)
    as (s0 & stl & Hsorted & Halloc).
  assert (Hs0 : In s0 (filter (onFloor (floor r0)) (filter isFree rs))).
  { rewrite Hfree. apply (sortBy_In cmpIndex). rewrite Hsorted. now left. }
  apply filter_In in Hs0. destruct Hs0 as [Hs0 Hfl].
  unfold onFloor in Hfl. apply Z.eqb_eq in Hfl.
  apply filter_isFree_In in Hs0. destruct Hs0 as [Hin Hst].
  assert (Hmin : forall r', In r' rs -> status r' = free -> floor r' = floor r0 ->
                            indexOnFloor s0 <= indexOnFloor r').
  { intros r' Hr' Hst' Hfl'.
    assert (Hr'' : In r' (s0 :: stl)).
    { rewrite <- Hsorted. apply sortBy_In. rewrite <- Hfree.
      apply filter_In. split.
      - apply filter_In. split; [assumption|]. unfold isFree. now rewrite Hst'.
      - unfold onFloor. now apply Z.eqb_eq. }
    pose proof (sortBy_cmpIndex_sorted (filter (onFloor (floor r0)) (r0 :: rest)))
      as Hss.
    rewrite Hsorted in Hss. inversion Hss as [|? ? _ Hall]; subst.
    destruct Hr'' as [<-|Hr'']; [lia|].
    rewrite Forall_forall in Hall. now apply Hall. }
  exists s0. split; [assumption|]. split; [assumption|]. split; [assumption|].
  split; [assumption|]. split; [assumption|].
  intros Hlayout r' Hr' Hst'.
  assert (Hle : floor r0 <= floor r').
  { apply (first_free_lowest_floor rs r0); try assumption.
    - rewrite (sameLayout_floors _ _ Hlayout). apply buildHotelRooms_floors_sorted.
    - unfold isFree. now rewrite Hst'. }
  unfold lexLe. rewrite Hfl.
  destruct (Z.eq_dec (floor r0) (floor r')) as [Heq|Hne].
  - right. split; [assumption|]. apply Hmin; [assumption | assumption | lia].
  - left. lia.
Qed.

Lemma allocateRooms_one_room_witness :
  exists r,
    allocateRooms (bookedExcept [510; 601]) 1 = Some (mkBookingResult [r] 0)
    /\ In r (bookedExcept [510; 601]) /\ status r = free
    /\ floor r = floor room510
    /\ (forall r', In r' (bookedExcept [510; 601]) -> status r' = free ->
                   floor r' = floor room510 ->
                   indexOnFloor r <= indexOnFloor r')
    /\ (sameLayout (bookedExcept [510; 601]) buildHotelRooms ->
        forall r', In r' (bookedExcept [510; 601]) -> status r' = free ->
                   lexLe r r').
Proof.
  apply (allocateRooms_one_room (bookedExcept [510; 601]) room510).
  vm_compute. reflexivity.
Defined.

(** ** The scenario of rooms 510 and 601 *)

(** C5, amended: with every room booked except 510 (floor 5, position 9) and
    601 (floor 6, position 0), a request for one room returns room 510 with
    travel time 0: floor 5 is met first, both single-room windows cost 0, and
    the later one does not replace the earlier. *)
Theorem allocateRooms_510_before_601 :
  let st := bookedExcept [510; 601] in
  sameLayout st buildHotelRooms
  /\ filter isFree st = [room510; room601]
  /\ Forall (fun r => status r = booked) (filter (fun r => negb (isFree r)) st)
  /\ allocateRooms st 1 = Some (mkBookingResult [room510] 0).
Proof.
  cbv zeta. split; [reflexivity|]. split; [reflexivity|].
  split; [vm_compute; repeat constructor | reflexivity].
Qed.

(** C5 as stated fails: in that state the result of a request for one room
    is not room 601. *)
Lemma allocateRooms_not_601 :
  filter isFree (bookedExcept [510; 601]) = [room510; room601]
  /\ allocateRooms (bookedExcept [510; 601]) 1
     <> Some (mkBookingResult [room601] 0).
Proof.
  split; [reflexivity|]. vm_compute. discriminate.
Qed.

(** * Further properties of the metric and the allocator *)

(** ** The metric is a distance on (floor, position) *)

(** X1: two rooms are at travel time 0 exactly when they have the same floor
    and position, and going through a third room is never shorter. *)
Theorem travelTimeBetween_distance :
  forall a b c : Room,
    (travelTimeBetween a b = 0 <->
     floor a = floor b /\ indexOnFloor a = indexOnFloor b)
    /\ travelTimeBetween a c <= travelTimeBetween a b + travelTimeBetween b c.
Proof.
  intros a b c. unfold travelTimeBetween. split; [split|]; lia.
Qed.

(** ** The travel time of a set does not depend on how it is listed *)

Lemma Subseq_length {A : Type} (c l : list A) :
  Subseq c l -> (length c <= length l)%nat.
Proof. induction 1; simpl; lia. Qed.

Lemma pairTimes_Subseq (c l : list Room) :
  Subseq c l -> forall t, In t (pairTimes c) -> In t (pairTimes l).
Proof.
  induction 1 as [l | x c l Hs IH | x c l _ IH]; intros t Ht; simpl in *.
  - contradiction.
  - apply in_app_or in Ht. apply in_or_app. destruct Ht as [Ht|Ht].
    + left. apply in_map_iff in Ht. destruct Ht as (b & <- & Hb).
      apply in_map. eapply Subseq_In; eassumption.
    + right. now apply IH.
  - apply in_or_app. right. now apply IH.
Qed.

Lemma pairTimes_Permutation (l l' : list Room) :
  Permutation l l' -> forall t, In t (pairTimes l) -> In t (pairTimes l').
Proof.
  induction 1 as [| x l l' Hp IH | x y l | l l' l'' _ IH1 _ IH2]; intros t Ht.
  - exact Ht.
  - simpl in *. apply in_app_or in Ht. apply in_or_app. destruct Ht as [Ht|Ht].
    + left. apply in_map_iff in Ht. destruct Ht as (b & <- & Hb).
      apply in_map. eapply Permutation_in; eassumption.
    + right. now apply IH.
  - simpl in *. rewrite !in_app_iff in *.
    destruct Ht as [Ht | [Ht | [Ht | Ht]]].
    + left. rewrite travelTimeBetween_sym. exact Ht.
    + right. right. left. exact Ht.
    + right. left. exact Ht.
    + right. right. right. exact Ht.
  - now apply IH2, IH1.
Qed.

Lemma totalTravelTimeForRooms_le_of_pairs (c l : list Room) :
  (2 <= length c)%nat -> (2 <= length l)%nat ->
  (forall t, In t (pairTimes c) -> In t (pairTimes l)) ->
  totalTravelTimeForRooms l <= totalTravelTimeForRooms c.
Proof.
  intros Hc Hl Hincl.
  destruct (totalTravelTimeForRooms_min c Hc) as [Hin _].
  destruct (totalTravelTimeForRooms_min l Hl) as [_ Hall].
  now apply Hall, Hincl.
Qed.

(** X2: listing the same rooms in another order gives the same travel
    time. *)
Theorem totalTravelTimeForRooms_Permutation :
  forall l l' : list Room,
    Permutation l l' ->
    totalTravelTimeForRooms l = totalTravelTimeForRooms l'.
Proof.
  intros l l' Hp. pose proof (Permutation_length Hp) as Hlen.
  destruct (Nat.le_gt_cases (length l) 1) as [Hs|Hl].
  - rewrite !totalTravelTimeForRooms_short by lia. reflexivity.
  - apply Z.le_antisymm.
    + apply totalTravelTimeForRooms_le_of_pairs; [lia | lia |].
      apply pairTimes_Permutation. now symmetry.
    + apply totalTravelTimeForRooms_le_of_pairs; [lia | lia |].
      now apply pairTimes_Permutation.
Qed.

Lemma totalTravelTimeForRooms_Permutation_witness :
  totalTravelTimeForRooms [room510; room601; mkRoom 101 1 0 free] =
  totalTravelTimeForRooms [room601; room510; mkRoom 101 1 0 free].
Proof.
  apply totalTravelTimeForRooms_Permutation. apply perm_swap.
Defined.

(** X3: among sets of two or more rooms, a larger set never has a larger
    travel time: rooms added to a set can only bring in a closer pair. *)
Theorem totalTravelTimeForRooms_more_rooms :
  forall c l : list Room,
    Subseq c l -> (2 <= length c)%nat ->
    totalTravelTimeForRooms l <= totalTravelTimeForRooms c.
Proof.
  intros c l Hs Hc. pose proof (Subseq_length _ _ Hs) as Hlen.
  apply totalTravelTimeForRooms_le_of_pairs; [assumption | lia |].
  now apply pairTimes_Subseq.
Qed.

Lemma totalTravelTimeForRooms_more_rooms_witness :
  totalTravelTimeForRooms [room510; mkRoom 511 5 10 free; room601] <=
  totalTravelTimeForRooms [room510; room601].
Proof.
  apply totalTravelTimeForRooms_more_rooms.
  - apply Subseq_take, Subseq_skip, Subseq_take, Subseq_nil.
  - simpl. lia.
Defined.

(** ** The map from floors to rooms *)

Lemma mapPush_concat (m : list (Z * list Room)) (r : Room) :
  Permutation (concat (map snd (mapPush m r))) (r :: concat (map snd m)).
Proof.
  induction m as [|[k v] tl IH]; simpl.
  - apply Permutation_refl.
  - destruct (k =? floor r); simpl.
    + rewrite <- app_assoc. simpl. symmetry. apply Permutation_middle.
    + rewrite IH. symmetry. apply Permutation_middle.
Qed.

Lemma groupByFloor_concat (l : list Room) :
  Permutation (concat (map snd (groupByFloor l))) l.
Proof.
  induction l as [|r l IH] using rev_ind.
  - apply perm_nil.
  - rewrite groupByFloor_snoc, mapPush_concat, IH.
    apply Permutation_cons_append.
Qed.

Lemma groupByFloor_entry_nonempty (l : list Room) (f : Z) (v : list Room) :
  In (f, v) (groupByFloor l) -> v = filter (onFloor f) l /\ v <> [].
Proof.
  intros Hin. pose proof (groupByFloor_entry _ _ _ Hin) as Hv.
  split; [assumption|].
  assert (Hk : In f (map fst (groupByFloor l)))
    by (apply (in_map fst) in Hin; exact Hin).
  apply groupByFloor_keys_In in Hk. destruct Hk as (r & Hr & Hf).
  assert (Hrv : In r v).
  { rewrite Hv. apply filter_In. split; [assumption|].
    unfold onFloor. now apply Z.eqb_eq. }
  intros ->. contradiction.
Qed.

(** X7: the map built from a list of rooms partitions it by floor: no floor
    has two entries, the entry of a floor holds exactly the rooms of that
    floor, in list order, and is not empty, every room is in the entry of its
    floor, the entries together hold each room once, and the first entry is
    the floor of the first room. *)
Theorem groupByFloor_partition :
  forall l : list Room,
    NoDup (map fst (groupByFloor l))
    /\ (forall f v, In (f, v) (groupByFloor l) ->
                    v = filter (onFloor f) l /\ v <> [])
    /\ (forall r, In r l ->
                  In (floor r, filter (onFloor (floor r)) l) (groupByFloor l))
    /\ Permutation (concat (map snd (groupByFloor l))) l
    /\ (forall r0 tl, l = r0 :: tl ->
                      map fst (firstn 1 (groupByFloor l)) = [floor r0]).
Proof.
  intros l. split; [apply groupByFloor_keys_NoDup|]. split; [|split; [|split]].
  - apply groupByFloor_entry_nonempty.
  - apply groupByFloor_has.
  - apply groupByFloor_concat.
  - intros r0 tl ->. destruct (groupByFloor_head r0 tl) as (rest & ->).
    reflexivity.
Qed.

(** ** The best window of phase 1 *)

Lemma singleFloorCandidates_window (fr : list Room) (count f : Z) (start : nat) :
  0 < count ->
  (start + Z.to_nat count <= length (filter (onFloor f) fr))%nat ->
  In (slice (sortBy cmpIndex (filter (onFloor f) fr)) start
        (start + Z.to_nat count))
     (singleFloorCandidates (groupByFloor fr) count).
Proof.
  intros Hpos Hlen.
  destruct (filter (onFloor f) fr) as [|r tl] eqn:Hfil; [simpl in Hlen; lia|].
  assert (Hr : In r (filter (onFloor f) fr)) by (rewrite Hfil; now left).
  apply filter_In in Hr. destruct Hr as [Hr Hfl].
  unfold onFloor in Hfl. apply Z.eqb_eq in Hfl.
  pose proof (groupByFloor_has fr r Hr) as He. rewrite Hfl, Hfil in He.
  unfold singleFloorCandidates. apply in_flat_map.
  exists (f, r :: tl). split; [assumption|]. cbv beta zeta. unfold snd.
  destruct (Z.ltb_spec (Z.of_nat (length (sortBy cmpIndex (r :: tl)))) count)
    as [Hlt|Hge]; [rewrite sortBy_length in Hlt; lia|].
  unfold windowsOf. apply in_map_iff. exists start. split; [reflexivity|].
  apply in_seq. rewrite sortBy_length. lia.
Qed.

Lemma singleFloorCandidates_is_window (fr : list Room) (count : Z)
  (c : list Room) :
  0 < count ->
  In c (singleFloorCandidates (groupByFloor fr) count) ->
  exists f start,
    c = slice (sortBy cmpIndex (filter (onFloor f) fr)) start
          (start + Z.to_nat count)
    /\ (start + Z.to_nat count <= length (filter (onFloor f) fr))%nat.
Proof.
  intros Hpos Hin. unfold singleFloorCandidates in Hin.
  apply in_flat_map in Hin. destruct Hin as ([f v] & He & Hc). simpl in Hc.
  apply groupByFloor_entry in He. subst v.
  rewrite sortBy_length in Hc.
  destruct (Z.ltb_spec (Z.of_nat (length (filter (onFloor f) fr))) count)
    as [Hlt|Hge]; [contradiction|].
  unfold windowsOf in Hc. apply in_map_iff in Hc. destruct Hc as (s & <- & Hs).
  apply in_seq in Hs. rewrite sortBy_length in Hs.
  exists f, s. split; [reflexivity | lia].
Qed.

Lemma fold_keepBetter_least (cands : list (list Room)) (res : BookingResult) :
  fold_left keepBetter cands None = Some res ->
  In (rooms res) cands
  /\ forall c, In c cands -> totalTravelTime res <= totalTravelTimeForRooms c.
Proof.
  intros H. apply fold_keepBetter_first_min in H.
  destruct H as (pre & post & -> & Ht & Hpre & Hpost). split; [apply in_elt|].
  intros c Hc. apply in_app_or in Hc. destruct Hc as [Hc|[<-|Hc]].
  - apply Z.lt_le_incl. now apply Hpre.
  - lia.
  - now apply Hpost.
Qed.

(** X4: for a count from 1 to 5, whenever some floor has a window of [count]
    free rooms (consecutive in position order among the free rooms of the
    floor), the result is such a window and no window of any floor has a
    smaller travel time. *)
Theorem allocateRooms_best_window :
  forall (rs : list Room) (count f : Z) (start : nat),
    1 <= count <= 5 ->
    (start + Z.to_nat count
     <= length (filter (onFloor f) (filter isFree rs)))%nat ->
    exists res,
      allocateRooms rs count = Some res
      /\ totalTravelTime res <=
         totalTravelTimeForRooms
           (slice (sortBy cmpIndex (filter (onFloor f) (filter isFree rs)))
              start (start + Z.to_nat count))
      /\ exists g start',
          rooms res =
          slice (sortBy cmpIndex (filter (onFloor g) (filter isFree rs)))
            start' (start' + Z.to_nat count)
          /\ (start' + Z.to_nat count
              <= length (filter (onFloor g) (filter isFree rs)))%nat.
Proof.
  intros rs count f start Hc Hlen.
  assert (Hfree : count <= Z.of_nat (length (filter isFree rs))).
  { pose proof (filter_length_le (onFloor f) (filter isFree rs)). lia. }
  pose proof (singleFloorCandidates_window (filter isFree rs) count f start
                ltac:(lia) Hlen) as Hwin.
  rewrite allocateRooms_guarded by assumption.
  destruct (fold_keepBetter_nonempty
              (singleFloorCandidates (groupByFloor (filter isFree rs)) count) None)
    as (res & Hres).
  { intros Hnil. rewrite Hnil in Hwin. contradiction. }
  rewrite Hres. exists res. split; [reflexivity|].
  apply fold_keepBetter_least in Hres. destruct Hres as [Hin Hleast].
  split; [now apply Hleast|].
  apply singleFloorCandidates_is_window; [lia | assumption].
Qed.

Lemma allocateRooms_best_window_witness :
  let rs := bookedExcept [301; 302; 305; 306; 307; 510] in
  exists res,
    allocateRooms rs 2 = Some res
    /\ totalTravelTime res <=
       totalTravelTimeForRooms
         (slice (sortBy cmpIndex (filter (onFloor 3) (filter isFree rs)))
            1 (1 + Z.to_nat 2))
    /\ exists g start',
        rooms res =
        slice (sortBy cmpIndex (filter (onFloor g) (filter isFree rs)))
          start' (start' + Z.to_nat 2)
        /\ (start' + Z.to_nat 2
            <= length (filter (onFloor g) (filter isFree rs)))%nat.
Proof.
  apply (allocateRooms_best_window
           (bookedExcept [301; 302; 305; 306; 307; 510]) 2 3 1).
  - lia.
  - vm_compute. repeat constructor.
Defined.

(** ** The order of the rooms in a result *)

Lemma Subseq_StronglySorted {A : Type} (R : A -> A -> Prop) (c l : list A) :
  Subseq c l -> StronglySorted R l -> StronglySorted R c.
Proof.
  induction 1 as [l | x c l Hs IH | x c l _ IH]; intros Hl.
  - constructor.
  - inversion Hl as [|? ? Hl' Hx]; subst. constructor; [now apply IH|].
    rewrite Forall_forall in *. intros y Hy. apply Hx.
    eapply Subseq_In; eassumption.
  - inversion Hl; subst. now apply IH.
Qed.

Lemma StronglySorted_same_floor (f : Z) (l : list Room) :
  (forall r, In r l -> floor r = f) ->
  StronglySorted (fun a b => indexOnFloor a <= indexOnFloor b) l ->
  StronglySorted lexLe l.
Proof.
  intros Hf. induction 1 as [|x t _ IH Hx]; constructor.
  - apply IH. intros r Hr. apply Hf. now right.
  - rewrite Forall_forall in *. intros y Hy. unfold lexLe. right. split.
    + rewrite (Hf x) by now left. symmetry. apply Hf. now right.
    + now apply Hx.
Qed.

(** X5: the rooms of every result are listed in ascending order of floor
    and, on a floor, of position. *)
Theorem allocateRooms_rooms_ascending :
  forall (rs : list Room) (count : Z) (res : BookingResult),
    allocateRooms rs count = Some res ->
    StronglySorted lexLe (rooms res).
Proof.
  intros rs count res H.
  destruct (allocateRooms_Some_guards _ _ _ H) as [Hc Hf].
  rewrite allocateRooms_guarded in H by assumption.
  destruct (fold_left keepBetter
              (singleFloorCandidates (groupByFloor (filter isFree rs)) count)
              None) as [b|] eqn:Hp1.
  - injection H as <-. apply fold_keepBetter_least in Hp1.
    destruct Hp1 as [Hin _].
    assert (Hpos : 0 < count) by lia.
    destruct (singleFloorCandidates_In _ _ _ Hpos Hin) as (f & Hs & _ & _).
    apply (StronglySorted_same_floor f).
    + intros r Hr. apply (Subseq_In _ _ Hs) in Hr. apply sortBy_In in Hr.
      apply filter_In in Hr. destruct Hr as [_ Hfl].
      unfold onFloor in Hfl. now apply Z.eqb_eq in Hfl.
    + eapply Subseq_StronglySorted; [exact Hs | apply sortBy_cmpIndex_sorted].
  - apply fold_keepBetter_least in H. destruct H as [Hin _].
    apply combinations_In in Hin. destruct Hin as [Hs _].
    eapply Subseq_StronglySorted;
      [|apply (sortBy_cmpFloorIndex_sorted (filter isFree rs))].
    eapply Subseq_trans; [exact Hs | apply Subseq_firstn].
Qed.

Lemma allocateRooms_rooms_ascending_witness :
  StronglySorted lexLe (rooms (mkBookingResult [room510; room601] 11)).
Proof.
  apply (allocateRooms_rooms_ascending (bookedExcept [510; 601]) 2).
  vm_compute. reflexivity.
Defined.

(** ** Two rooms on one floor *)

Lemma Subseq_app_l {A : Type} (u c l : list A) : Subseq c l -> Subseq c (u ++ l).
Proof. intros H. induction u as [|x u IH]; simpl; [assumption | now constructor]. Qed.

Lemma two_in_Permutation {A : Type} (s : list A) (a b : A) (rest : list A) :
  Permutation s (a :: b :: rest) ->
  (exists u w1 w2, s = u ++ a :: w1 ++ b :: w2)
  \/ (exists u w1 w2, s = u ++ b :: w1 ++ a :: w2).
Proof.
  intros Hp.
  assert (Ha : In a s) by (eapply Permutation_in; [symmetry; exact Hp | now left]).
  apply in_split in Ha. destruct Ha as (s1 & s2 & ->).
  assert (Hp' : Permutation (b :: rest) (s1 ++ s2)).
  { apply Permutation_cons_app_inv with (a := a). now symmetry. }
  assert (Hb : In b (s1 ++ s2)) by (eapply Permutation_in; [exact Hp' | now left]).
  apply in_app_or in Hb. destruct Hb as [Hb|Hb].
  - right. apply in_split in Hb. destruct Hb as (u & w1 & ->).
    exists u, w1, s2. now rewrite <- app_assoc.
  - left. apply in_split in Hb. destruct Hb as (w1 & w2 & ->).
    now exists s1, w1, w2.
Qed.

Lemma filter_two {A : Type} (p : A -> bool) (l1 l2 l3 : list A) (a b : A) :
  p a = true -> p b = true ->
  filter p (l1 ++ a :: l2 ++ b :: l3) =
  filter p l1 ++ a :: filter p l2 ++ b :: filter p l3.
Proof.
  intros Ha Hb. rewrite filter_app. simpl. rewrite Ha, filter_app. simpl.
  now rewrite Hb.
Qed.

Lemma Permutation_two_front {A : Type} (m1 m2 m3 : list A) (a b : A) :
  Permutation (m1 ++ a :: m2 ++ b :: m3) (a :: b :: m1 ++ m2 ++ m3).
Proof.
  rewrite <- Permutation_middle. apply perm_skip.
  rewrite app_assoc, <- Permutation_middle. now rewrite <- app_assoc.
Qed.

(** In the rooms of one floor sorted by position, the room right after [x]
    is at least as close to [x] as any later room [y]. *)
Lemma sorted_next_is_closer (f : Z) (u w1 w2 : list Room) (x y : Room) :
  StronglySorted (fun a b => indexOnFloor a <= indexOnFloor b)
    (u ++ x :: w1 ++ y :: w2) ->
  (forall r, In r (u ++ x :: w1 ++ y :: w2) -> floor r = f) ->
  exists z,
    slice (u ++ x :: w1 ++ y :: w2) (length u) (length u + 2) = [x; z]
    /\ travelTimeBetween x z <= travelTimeBetween x y.
Proof.
  intros Hs Hf.
  assert (Hslice : forall z tl,
             slice (u ++ x :: z :: tl) (length u) (length u + 2) = [x; z]).
  { intros z tl. unfold slice.
    replace (length u + 2 - length u)%nat with 2%nat by lia.
    rewrite skipn_app, skipn_all, Nat.sub_diag. reflexivity. }
  destruct w1 as [|z w1]; simpl in *.
  - exists y. split; [apply Hslice | lia].
  - exists z. split; [apply Hslice|].
    assert (Hsub : Subseq [x; z; y] (u ++ x :: z :: w1 ++ y :: w2)).
    { apply Subseq_app_l. do 2 apply Subseq_take. apply Subseq_app_l.
      apply Subseq_take, Subseq_nil. }
    pose proof (Subseq_StronglySorted _ _ _ Hsub Hs) as H3.
    inversion H3 as [|? ? H2 Hx]; subst. inversion H2 as [|? ? _ Hz]; subst.
    inversion Hx as [|? ? Hxz _]; subst. inversion Hz as [|? ? Hzy _]; subst.
    assert (Hfx : floor x = f) by (apply Hf, (Subseq_In _ _ Hsub); now left).
    assert (Hfz : floor z = f)
      by (apply Hf, (Subseq_In _ _ Hsub); right; now left).
    assert (Hfy : floor y = f)
      by (apply Hf, (Subseq_In _ _ Hsub); right; right; now left).
    unfold travelTimeBetween. rewrite Hfx, Hfz, Hfy. lia.
Qed.

(** X6: when two free rooms of the list are on the same floor, a request
    for two rooms returns two rooms of one floor whose travel time is the
    distance between them, and that distance is at most the distance between
    any two free rooms of the list that share a floor. *)
Theorem allocateRooms_two_closest_on_a_floor :
  forall (l1 l2 l3 : list Room) (a b : Room),
    status a = free -> status b = free -> floor a = floor b ->
    exists res x y,
      allocateRooms (l1 ++ a :: l2 ++ b :: l3) 2 = Some res
      /\ rooms res = [x; y]
      /\ floor x = floor y
      /\ totalTravelTime res = travelTimeBetween x y
      /\ totalTravelTime res <= travelTimeBetween a b.
Proof.
  intros l1 l2 l3 a b Ha Hb Hab.
  set (rs := l1 ++ a :: l2 ++ b :: l3).
  assert (Hfa : isFree a = true) by (unfold isFree; now rewrite Ha).
  assert (Hfb : isFree b = true) by (unfold isFree; now rewrite Hb).
  assert (Hoa : onFloor (floor a) a = true) by (unfold onFloor; apply Z.eqb_refl).
  assert (Hob : onFloor (floor a) b = true)
    by (unfold onFloor; apply Z.eqb_eq; now symmetry).
  assert (Hfloor : filter (onFloor (floor a)) (filter isFree rs) =
                   filter (onFloor (floor a)) (filter isFree l1)
                   ++ a :: filter (onFloor (floor a)) (filter isFree l2)
                   ++ b :: filter (onFloor (floor a)) (filter isFree l3)).
  { unfold rs. rewrite (filter_two isFree) by assumption.
    now rewrite (filter_two (onFloor (floor a))) by assumption. }
  set (s := sortBy cmpIndex (filter (onFloor (floor a)) (filter isFree rs))).
  assert (Hperm : Permutation s
                    (a :: b ::
                       filter (onFloor (floor a)) (filter isFree l1)
                       ++ filter (onFloor (floor a)) (filter isFree l2)
                       ++ filter (onFloor (floor a)) (filter isFree l3))).
  { unfold s. rewrite sortBy_perm, Hfloor. apply Permutation_two_front. }
  assert (Hsorted : StronglySorted (fun p q => indexOnFloor p <= indexOnFloor q) s)
    by apply sortBy_cmpIndex_sorted.
  assert (Hsfloor : forall r, In r s -> floor r = floor a).
  { intros r Hr. apply sortBy_In in Hr. apply filter_In in Hr.
    destruct Hr as [_ Hr]. unfold onFloor in Hr. now apply Z.eqb_eq in Hr. }
  assert (Hwin : exists (x z : Room) (u : list Room),
             slice s (length u) (length u + 2) = [x; z]
             /\ (length u + 2 <= length s)%nat
             /\ travelTimeBetween x z <= travelTimeBetween a b).
  { destruct (two_in_Permutation _ _ _ _ Hperm)
      as [(u & w1 & w2 & Hs) | (u & w1 & w2 & Hs)]; rewrite Hs in *.
    - destruct (sorted_next_is_closer _ _ _ _ _ _ Hsorted Hsfloor)
        as (z & Hsl & Hle).
      exists a, z, u. split; [assumption|]. split; [|assumption].
      rewrite length_app. simpl. rewrite length_app. simpl. lia.
    - destruct (sorted_next_is_closer _ _ _ _ _ _ Hsorted Hsfloor)
        as (z & Hsl & Hle).
      exists b, z, u. split; [assumption|]. split.
      + rewrite length_app. simpl. rewrite length_app. simpl. lia.
      + rewrite (travelTimeBetween_sym a b). assumption. }
  destruct Hwin as (x0 & z0 & u & Hsl & Hlen & Hle).
  assert (Hcand : In [x0; z0]
                    (singleFloorCandidates (groupByFloor (filter isFree rs)) 2)).
  { rewrite <- Hsl. unfold s.
    apply (singleFloorCandidates_window (filter isFree rs) 2 (floor a) (length u));
      [lia|].
    unfold s in Hlen. rewrite sortBy_length in Hlen. exact Hlen. }
  assert (Hfree : 2 <= Z.of_nat (length (filter isFree rs))).
  { unfold rs. rewrite (filter_two isFree) by assumption.
    rewrite length_app. simpl. rewrite length_app. simpl. lia. }
  destruct (fold_keepBetter_nonempty
              (singleFloorCandidates (groupByFloor (filter isFree rs)) 2) None)
    as (res & Hres).
  { intros Hnil. rewrite Hnil in Hcand. contradiction. }
  assert (Halloc : allocateRooms rs 2 = Some res).
  { rewrite allocateRooms_guarded by lia. now rewrite Hres. }
  pose proof (fold_keepBetter_first_min _ _ Hres) as (pre & post & _ & Ht & _).
  apply fold_keepBetter_least in Hres. destruct Hres as [Hin Hleast].
  apply singleFloorCandidates_shape in Hin; [|lia].
  destruct Hin as (Hl2 & (g & Hg) & _).
  destruct (rooms res) as [|x [|y [|? ?]]] eqn:Hrooms; try discriminate Hl2.
  exists res, x, y. split; [exact Halloc|]. split; [exact Hrooms|].
  split; [rewrite (Hg x), (Hg y); [reflexivity | right; now left | now left]|].
  split; [exact Ht|].
  specialize (Hleast _ Hcand).
  change (totalTravelTimeForRooms [x0; z0]) with (travelTimeBetween x0 z0) in Hleast.
  lia.
Qed.

Lemma allocateRooms_two_closest_on_a_floor_witness :
  exists res x y,
    allocateRooms
      ([mkRoom 101 1 0 free] ++ mkRoom 201 2 0 free
         :: [mkRoom 103 1 2 free] ++ mkRoom 205 2 4 free :: []) 2 = Some res
    /\ rooms res = [x; y]
    /\ floor x = floor y
    /\ totalTravelTime res = travelTimeBetween x y
    /\ totalTravelTime res <=
       travelTimeBetween (mkRoom 201 2 0 free) (mkRoom 205 2 4 free).
Proof.
  apply (allocateRooms_two_closest_on_a_floor
           [mkRoom 101 1 0 free] [mkRoom 103 1 2 free] []
           (mkRoom 201 2 0 free) (mkRoom 205 2 4 free));
    reflexivity.
Defined.

(** * Properties of the page state and its handlers *)

(** ** What a result of the allocator is made of *)

Lemma allocateRooms_succeeds (rs : list Room) (count : Z) :
  1 <= count <= 5 -> count <= Z.of_nat (length (filter isFree rs)) ->
  exists res, allocateRooms rs count = Some res.
Proof.
  intros Hc Hf. rewrite allocateRooms_guarded by assumption.
  destruct (fold_left keepBetter
              (singleFloorCandidates (groupByFloor (filter isFree rs)) count)
              None) as [b|]; [now exists b|].
  apply fold_keepBetter_nonempty, combinations_nonempty.
  rewrite length_firstn, sortBy_length. lia.
Qed.

Lemma allocateRooms_result_shape (rs : list Room) (count : Z)
  (res : BookingResult) :
  allocateRooms rs count = Some res ->
  Z.of_nat (length (rooms res)) = count
  /\ (forall r, In r (rooms res) -> In r rs /\ status r = free)
  /\ (NoDup (filter isFree rs) -> NoDup (rooms res)).
Proof.
  intros H. destruct (allocateRooms_Some_guards _ _ _ H) as [Hc Hf].
  rewrite allocateRooms_guarded in H by assumption.
  destruct (fold_left keepBetter
              (singleFloorCandidates (groupByFloor (filter isFree rs)) count)
              None) as [b|] eqn:Hp1.
  - injection H as <-. apply fold_keepBetter_least in Hp1.
    destruct Hp1 as [Hin _].
    apply singleFloorCandidates_shape in Hin; [|lia].
    destruct Hin as (Hlen & _ & Hmem & Hnd).
    split; [rewrite Hlen; lia|]. split; [|assumption].
    intros r Hr. now apply filter_isFree_In, Hmem.
  - apply fold_keepBetter_least in H. destruct H as [Hin _].
    apply poolCombinations_shape in Hin. destruct Hin as (Hlen & Hmem & Hnd).
    split; [rewrite Hlen; lia|]. split; [|assumption].
    intros r Hr. now apply filter_isFree_In, Hmem.
Qed.

(** ** The booking handler *)

Lemma onBookClick_Some_inv (s : AppState) (value : option Z)
  (res : BookingResult) :
  lastBooking (onBookClick s value) = Some res ->
  exists v,
    value = Some v
    /\ allocateRooms (appRooms s) v = Some res
    /\ onBookClick s value =
       mkAppState (map (markBooked res) (appRooms s)) (Some res) None.
Proof.
  unfold onBookClick. destruct value as [v|]; [|discriminate].
  destruct ((v <? 1) || (v >? 5)); [discriminate|].
  destruct (allocateRooms (appRooms s) v) as [r|] eqn:Ha; [|discriminate].
  simpl. intros H. injection H as <-. exists v. repeat split. exact Ha.
Qed.

(** X8: the booking handler refuses a count that is not a number or is
    outside 1..5 with the "valid room count" message, refuses a count in
    range that exceeds the number of free rooms with the "unable to allocate"
    message, and in both cases keeps the rooms as they are and shows no
    booking; otherwise it books: the allocator's result becomes the last
    booking, the rooms it names are marked, and no message is shown. *)
Theorem onBookClick_outcomes :
  forall (s : AppState) (value : option Z),
    ((value = None \/ exists v, value = Some v /\ (v < 1 \/ v > 5)) ->
     onBookClick s value = mkAppState (appRooms s) None (Some msgInvalidCount))
    /\ (forall v,
          value = Some v -> 1 <= v <= 5 ->
          Z.of_nat (length (filter isFree (appRooms s))) < v ->
          onBookClick s value = mkAppState (appRooms s) None (Some msgUnable))
    /\ (forall v,
          value = Some v -> 1 <= v <= 5 ->
          v <= Z.of_nat (length (filter isFree (appRooms s))) ->
          exists res,
            allocateRooms (appRooms s) v = Some res
            /\ onBookClick s value =
               mkAppState (map (markBooked res) (appRooms s)) (Some res) None).
Proof.
  intros s value. split; [|split].
  - intros [->|(v & -> & Hv)]; [reflexivity|]. unfold onBookClick.
    rewrite Z.gtb_ltb.
    destruct (Z.ltb_spec v 1); [reflexivity|].
    destruct (Z.ltb_spec 5 v); [reflexivity | lia].
  - intros v -> Hv Hfew. unfold onBookClick. rewrite Z.gtb_ltb.
    replace (v <? 1) with false by (symmetry; apply Z.ltb_ge; lia).
    replace (5 <? v) with false by (symmetry; apply Z.ltb_ge; lia).
    simpl. rewrite allocateRooms_rejects by lia. reflexivity.
  - intros v -> Hv Henough.
    destruct (allocateRooms_succeeds (appRooms s) v Hv Henough) as (res & Hres).
    exists res. split; [assumption|]. unfold onBookClick. rewrite Z.gtb_ltb.
    replace (v <? 1) with false by (symmetry; apply Z.ltb_ge; lia).
    replace (5 <? v) with false by (symmetry; apply Z.ltb_ge; lia).
    simpl. now rewrite Hres.
Qed.

Lemma onBookClick_outcomes_witness :
  onBookClick initialState (Some 7) =
    mkAppState (appRooms initialState) None (Some msgInvalidCount)
  /\ onBookClick (mkAppState (bookedExcept [510; 601]) None None) (Some 3) =
       mkAppState (bookedExcept [510; 601]) None (Some msgUnable)
  /\ exists res,
      allocateRooms (appRooms initialState) 4 = Some res
      /\ onBookClick initialState (Some 4) =
         mkAppState (map (markBooked res) (appRooms initialState)) (Some res) None.
Proof.
  split; [|split].
  - apply (proj1 (onBookClick_outcomes initialState (Some 7))).
    right. exists 7. split; [reflexivity | lia].
  - apply (proj1 (proj2 (onBookClick_outcomes
                           (mkAppState (bookedExcept [510; 601]) None None)
                           (Some 3))) 3);
      [reflexivity | lia | vm_compute; reflexivity].
  - apply (proj2 (proj2 (onBookClick_outcomes initialState (Some 4))) 4);
      [reflexivity | lia | vm_compute; discriminate].
Defined.

(** *** What a booking changes *)

Lemma markBooked_id (res : BookingResult) (r : Room) :
  id (markBooked res r) = id r
  /\ floor (markBooked res r) = floor r
  /\ indexOnFloor (markBooked res r) = indexOnFloor r.
Proof.
  unfold markBooked. destruct (existsb _ _); repeat split.
Qed.

Lemma markBooked_sameLayout (res : BookingResult) (rs : list Room) :
  sameLayout (map (markBooked res) rs) rs.
Proof.
  unfold sameLayout. rewrite map_map. apply map_ext. intros r.
  destruct (markBooked_id res r) as (-> & -> & ->). reflexivity.
Qed.

Lemma id_injective (rs : list Room) (a b : Room) :
  NoDup (map id rs) -> In a rs -> In b rs -> id a = id b -> a = b.
Proof.
  induction rs as [|x rs IH]; simpl; intros Hnd Ha Hb Hid; [contradiction|].
  inversion Hnd as [|? ? Hx Hnd']; subst.
  destruct Ha as [<-|Ha]; destruct Hb as [<-|Hb].
  - reflexivity.
  - exfalso. apply Hx. rewrite Hid. now apply in_map.
  - exfalso. apply Hx. rewrite <- Hid. now apply in_map.
  - now apply IH.
Qed.

(** With distinct room numbers the id test of [markBooked] singles out the
    rooms of the result. *)
Lemma markBooked_test (rs : list Room) (res : BookingResult) (r : Room) :
  NoDup (map id rs) -> (forall br, In br (rooms res) -> In br rs) -> In r rs ->
  existsb (fun br => id br =? id r) (rooms res) = true <-> In r (rooms res).
Proof.
  intros Hnd Hsub Hr. rewrite existsb_exists. split.
  - intros (br & Hbr & Hid). apply Z.eqb_eq in Hid.
    rewrite <- (id_injective rs br r Hnd (Hsub _ Hbr) Hr Hid). exact Hbr.
  - intros Hin. exists r. split; [assumption | apply Z.eqb_refl].
Qed.

Lemma filter_split_length {A : Type} (p : A -> bool) (l : list A) :
  (length (filter p l) + length (filter (fun x => negb (p x)) l))%nat = length l.
Proof.
  induction l as [|x l IH]; simpl; [reflexivity|].
  destruct (p x); simpl; lia.
Qed.

Lemma filter_isFree_markBooked (res : BookingResult) (rs : list Room) :
  (forall r, In r rs ->
             existsb (fun br => id br =? id r) (rooms res) = true ->
             isFree r = true) ->
  filter isFree (map (markBooked res) rs) =
  filter (fun r => negb (existsb (fun br => id br =? id r) (rooms res)))
    (filter isFree rs).
Proof.
  induction rs as [|x rs IH]; intros Hfree; simpl; [reflexivity|].
  rewrite IH by (intros r Hr; apply Hfree; now right).
  unfold markBooked.
  destruct (existsb (fun br => id br =? id x) (rooms res)) eqn:Hx.
  - rewrite (Hfree x (or_introl eq_refl) Hx). simpl. rewrite Hx. reflexivity.
  - destruct (isFree x); simpl; [rewrite Hx|]; reflexivity.
Qed.

(** The effect of a successful booking on a state with distinct room
    numbers. *)
Lemma onBookClick_effect :
  forall (s : AppState) (v : Z) (res : BookingResult),
    NoDup (map id (appRooms s)) ->
    allocateRooms (appRooms s) v = Some res ->
    let s' := onBookClick s (Some v) in
    lastBooking s' = Some res
    /\ message s' = None
    /\ sameLayout (appRooms s') (appRooms s)
    /\ (forall i r, nth_error (appRooms s) i = Some r ->
                    (In r (rooms res) ->
                     nth_error (appRooms s') i = Some (setStatus booked r))
                    /\ (~ In r (rooms res) ->
                        nth_error (appRooms s') i = Some r))
    /\ Z.of_nat (length (filter isFree (appRooms s'))) + v =
       Z.of_nat (length (filter isFree (appRooms s))).
Proof.
  intros s v res Hnd Halloc s'.
  destruct (allocateRooms_Some_guards _ _ _ Halloc) as [Hv Hfree].
  destruct (allocateRooms_result_shape _ _ _ Halloc) as (Hlen & Hmem & Hdistinct).
  assert (Hs' : s' = mkAppState (map (markBooked res) (appRooms s)) (Some res) None).
  { unfold s', onBookClick. rewrite Z.gtb_ltb.
    replace (v <? 1) with false by (symmetry; apply Z.ltb_ge; lia).
    replace (5 <? v) with false by (symmetry; apply Z.ltb_ge; lia).
    simpl. now rewrite Halloc. }
  rewrite Hs'. simpl.
  assert (Hsub : forall br, In br (rooms res) -> In br (appRooms s))
    by (intros br Hbr; now apply Hmem).
  split; [reflexivity|]. split; [reflexivity|].
  split; [apply markBooked_sameLayout|]. split.
  - intros i r Hi.
    assert (Hr : In r (appRooms s)) by (eapply nth_error_In; eassumption).
    pose proof (markBooked_test _ res r Hnd Hsub Hr) as Htest.
    split; intros Hin; rewrite nth_error_map, Hi; simpl; unfold markBooked.
    + now rewrite (proj2 Htest Hin).
    + destruct (existsb (fun br => id br =? id r) (rooms res)) eqn:He;
        [exfalso; apply Hin, Htest; reflexivity | reflexivity].
  - rewrite filter_isFree_markBooked.
    2:{ intros r Hr He. apply (markBooked_test _ res r Hnd Hsub Hr) in He.
        apply Hmem in He. unfold isFree. now rewrite (proj2 He). }
    pose proof (filter_split_length
                  (fun r => existsb (fun br => id br =? id r) (rooms res))
                  (filter isFree (appRooms s))) as Hsplit.
    assert (Hnd_free : NoDup (filter isFree (appRooms s))).
    { apply NoDup_filter. eapply NoDup_map_inv. exact Hnd. }
    assert (Hperm : Permutation
                      (filter (fun r => existsb (fun br => id br =? id r) (rooms res))
                         (filter isFree (appRooms s)))
                      (rooms res)).
    { apply NoDup_Permutation.
      - now apply NoDup_filter.
      - now apply Hdistinct.
      - intros r. rewrite filter_In. split.
        + intros [Hr He]. apply filter_In in Hr. destruct Hr as [Hr _].
          now apply (markBooked_test _ res r Hnd Hsub Hr).
        + intros Hr. destruct (Hmem _ Hr) as [Hin Hst]. split.
          * apply filter_In. split; [assumption|]. unfold isFree. now rewrite Hst.
          * now apply (markBooked_test _ res r Hnd Hsub Hin). }
    apply Permutation_length in Hperm. lia.
Qed.

(** X9: when the room numbers of the state are distinct and the allocator
    returns a result for the count, the booking handler keeps every room's
    number, floor and position, gives the rooms of the result the status
    booked, leaves every other room as it is, and lowers the number of free
    rooms by exactly the count. *)
Theorem onBookClick_books_the_result :
  forall (s : AppState) (v : Z) (res : BookingResult),
    NoDup (map id (appRooms s)) ->
    allocateRooms (appRooms s) v = Some res ->
    let s' := onBookClick s (Some v) in
    lastBooking s' = Some res
    /\ message s' = None
    /\ sameLayout (appRooms s') (appRooms s)
    /\ (forall i r, nth_error (appRooms s) i = Some r ->
                    (In r (rooms res) ->
                     nth_error (appRooms s') i = Some (setStatus booked r))
                    /\ (~ In r (rooms res) ->
                        nth_error (appRooms s') i = Some r))
    /\ Z.of_nat (length (filter isFree (appRooms s'))) + v =
       Z.of_nat (length (filter isFree (appRooms s))).
Proof. exact onBookClick_effect. Qed.

Lemma onBookClick_books_the_result_witness :
  let s := mkAppState (bookedExcept [510; 601]) None None in
  let res := mkBookingResult [room510; room601] 11 in
  let s' := onBookClick s (Some 2) in
  lastBooking s' = Some res
  /\ message s' = None
  /\ sameLayout (appRooms s') (appRooms s)
  /\ (forall i r, nth_error (appRooms s) i = Some r ->
                  (In r (rooms res) ->
                   nth_error (appRooms s') i = Some (setStatus booked r))
                  /\ (~ In r (rooms res) ->
                      nth_error (appRooms s') i = Some r))
  /\ Z.of_nat (length (filter isFree (appRooms s'))) + 2 =
     Z.of_nat (length (filter isFree (appRooms s))).
Proof.
  apply (onBookClick_books_the_result
           (mkAppState (bookedExcept [510; 601]) None None) 2
           (mkBookingResult [room510; room601] 11)).
  - assert (H : nodup Z.eq_dec (map id (bookedExcept [510; 601])) =
                map id (bookedExcept [510; 601])) by (vm_compute; reflexivity).
    simpl appRooms. rewrite <- H. apply NoDup_nodup.
  - vm_compute. reflexivity.
Defined.

(** ** The pages reachable from the first one *)

Lemma buildHotelRooms_all_free :
  Forall (fun r => status r = free) buildHotelRooms.
Proof. vm_compute. repeat constructor. Qed.

Lemma buildHotelRooms_ids_NoDup : NoDup (map id buildHotelRooms).
Proof.
  assert (H : nodup Z.eq_dec (map id buildHotelRooms) = map id buildHotelRooms)
    by (vm_compute; reflexivity).
  rewrite <- H. apply NoDup_nodup.
Qed.

Lemma sameLayout_ids (r1 r2 : list Room) :
  sameLayout r1 r2 -> map id r1 = map id r2.
Proof.
  unfold sameLayout. intros H.
  apply (f_equal (map (fun t : Z * Z * Z => fst (fst t)))) in H.
  rewrite !map_map in H. exact H.
Qed.

Lemma sameLayout_length (r1 r2 : list Room) :
  sameLayout r1 r2 -> length r1 = length r2.
Proof.
  unfold sameLayout. intros H. apply (f_equal (@length _)) in H.
  now rewrite !length_map in H.
Qed.

Lemma random_sameLayout (shouldBook : nat -> bool) (rs : list Room) (n : nat) :
  sameLayout
    (map (fun ir : nat * Room =>
            setStatus (if shouldBook (fst ir) then booked else free) (snd ir))
         (combine (seq n (length rs)) rs))
    rs.
Proof.
  unfold sameLayout. revert n.
  induction rs as [|r rs IH]; intros n; simpl; [reflexivity|].
  now rewrite IH.
Qed.

Lemma existsb_ids (x : Z) (l : list Room) :
  existsb (Z.eqb x) (map id l) = existsb (fun br => id br =? x) l.
Proof.
  induction l as [|r l IH]; simpl; [reflexivity|].
  now rewrite IH, (Z.eqb_sym x (id r)).
Qed.

Lemma free_or_booked_count (rs : list Room) :
  Forall (fun r => status r = free \/ status r = booked) rs ->
  (length (filter isFree rs) + length (filter isBooked rs))%nat = length rs.
Proof.
  induction 1 as [|r rs Hr _ IH]; simpl; [reflexivity|].
  unfold isFree at 1, isBooked at 1.
  destruct Hr as [-> | ->]; simpl; lia.
Qed.

Lemma pageInvariant_initial : pageInvariant initialState.
Proof.
  unfold pageInvariant, initialState. simpl. split; [reflexivity|].
  split; [|split; [intros r _ H; discriminate | intros res H; discriminate]].
  eapply Forall_impl; [|apply buildHotelRooms_all_free]. intros r Hr. now left.
Qed.

Lemma pageInvariant_refused (s : AppState) (m : String.string) :
  pageInvariant s -> pageInvariant (mkAppState (appRooms s) None (Some m)).
Proof.
  intros (Hlay & Hst & _ & _). unfold pageInvariant. simpl.
  split; [assumption|]. split; [assumption|].
  split; [intros r _ H; discriminate | intros res H; discriminate].
Qed.

Lemma pageInvariant_handle (s : AppState) (e : Event) :
  pageInvariant s -> pageInvariant (handle s e).
Proof.
  intros Hinv. destruct e as [value | shouldBook |]; simpl.
  - unfold onBookClick. destruct value as [v|]; [|now apply pageInvariant_refused].
    destruct ((v <? 1) || (v >? 5)); [now apply pageInvariant_refused|].
    destruct (allocateRooms (appRooms s) v) as [res|];
      [|now apply pageInvariant_refused].
    destruct Hinv as (Hlay & Hst & _ & _). unfold pageInvariant. simpl.
    split; [|split; [|split]].
    + unfold sameLayout in *. rewrite <- Hlay. apply markBooked_sameLayout.
    + rewrite Forall_forall in *. intros r' Hr'. apply in_map_iff in Hr'.
      destruct Hr' as (r & <- & Hr). unfold markBooked.
      destruct (existsb _ _); [now right | now apply Hst].
    + intros r' Hr' Hsel. apply in_map_iff in Hr'.
      destruct Hr' as (r & <- & Hr). unfold bookedIds in Hsel. simpl in Hsel.
      rewrite existsb_ids in Hsel.
      destruct (markBooked_id res r) as (Hid & _). rewrite Hid in Hsel.
      unfold markBooked. now rewrite Hsel.
    + reflexivity.
  - destruct Hinv as (Hlay & _ & _ & _). unfold pageInvariant, onRandomClick.
    simpl. split; [|split; [|split]].
    + unfold sameLayout in *. rewrite <- Hlay. apply random_sameLayout.
    + rewrite Forall_forall. intros r' Hr'. apply in_map_iff in Hr'.
      destruct Hr' as (ir & <- & _).
      destruct (shouldBook (fst ir)); [now right | now left].
    + intros r _ H. discriminate.
    + intros res H. discriminate.
  - unfold pageInvariant, onResetClick. simpl. split; [reflexivity|].
    split; [|split; [intros r _ H; discriminate | intros res H; discriminate]].
    eapply Forall_impl; [|apply buildHotelRooms_all_free]. intros r Hr. now left.
Qed.

Lemma pageInvariant_fold (events : list Event) (s : AppState) :
  pageInvariant s -> pageInvariant (fold_left handle events s).
Proof.
  revert s. induction events as [|e es IH]; intros s Hs; simpl; [assumption|].
  apply IH. now apply pageInvariant_handle.
Qed.

Lemma roomClasses_selected (s : AppState) (r : Room) :
  In "selected"%string (roomClasses s r) <->
  existsb (Z.eqb (id r)) (bookedIds s) = true.
Proof.
  unfold roomClasses.
  destruct (isFree r); destruct (isBooked r);
    destruct (existsb (Z.eqb (id r)) (bookedIds s)); simpl;
    split; intros H; try reflexivity; try discriminate;
    repeat (destruct H as [H|H]; try discriminate H); try contradiction;
    tauto.
Qed.

Lemma roomClasses_booked (s : AppState) (r : Room) :
  In "booked"%string (roomClasses s r) <-> status r = booked.
Proof.
  unfold roomClasses, isFree, isBooked.
  destruct (status r); destruct (existsb (Z.eqb (id r)) (bookedIds s)); simpl;
    split; intros H; try reflexivity; try discriminate;
    repeat (destruct H as [H|H]; try discriminate H); try contradiction;
    tauto.
Qed.

(** X10: after any sequence of clicks (book with any input, random
    occupancy with any draws, reset) the page holds the 97 rooms of the
    layout with their numbers, floors and positions, in layout order; the
    room numbers are distinct; every room is free or booked, so the free and
    booked counts of the header add up to 97; every room drawn as selected is
    drawn as booked; and a booking is never shown together with a message. *)
Theorem run_invariant :
  forall events : list Event,
    let s := run events in
    sameLayout (appRooms s) buildHotelRooms
    /\ length (appRooms s) = 97%nat
    /\ NoDup (map id (appRooms s))
    /\ Forall (fun r => status r = free \/ status r = booked) (appRooms s)
    /\ (length (filter isFree (appRooms s))
        + length (filter isBooked (appRooms s)))%nat = 97%nat
    /\ (forall r, In r (appRooms s) ->
                  In "selected"%string (roomClasses s r) ->
                  In "booked"%string (roomClasses s r))
    /\ (forall res, lastBooking s = Some res -> message s = None).
Proof.
  intros events s.
  assert (Hinv : pageInvariant s)
    by (apply pageInvariant_fold, pageInvariant_initial).
  destruct Hinv as (Hlay & Hst & Hsel & Hmsg).
  assert (Hlen : length (appRooms s) = 97%nat)
    by (rewrite (sameLayout_length _ _ Hlay); reflexivity).
  split; [assumption|]. split; [assumption|]. split.
  { rewrite (sameLayout_ids _ _ Hlay). apply buildHotelRooms_ids_NoDup. }
  split; [assumption|]. split.
  { now rewrite free_or_booked_count. }
  split; [|assumption].
  intros r Hr Hs. apply roomClasses_booked. apply Hsel; [assumption|].
  now apply roomClasses_selected.
Qed.

(** ** No room is handed out twice *)

Lemma onBookClick_keeps_booked (s : AppState) (value : option Z) (n : Z) :
  (forall r, In r (appRooms s) -> id r = n -> status r = booked) ->
  forall r, In r (appRooms (onBookClick s value)) -> id r = n ->
            status r = booked.
Proof.
  intros H. unfold onBookClick. destruct value as [v|]; [|exact H].
  destruct ((v <? 1) || (v >? 5)); [exact H|].
  destruct (allocateRooms (appRooms s) v) as [res|]; [|exact H].
  simpl. intros r' Hr' Hid. apply in_map_iff in Hr'.
  destruct Hr' as (r & <- & Hr).
  destruct (markBooked_id res r) as (Hid' & _). rewrite Hid' in Hid.
  unfold markBooked. destruct (existsb _ _); [reflexivity | now apply H].
Qed.

Lemma fold_onBookClick_keeps_booked (values : list (option Z)) (s : AppState)
  (n : Z) :
  (forall r, In r (appRooms s) -> id r = n -> status r = booked) ->
  forall r, In r (appRooms (fold_left onBookClick values s)) -> id r = n ->
            status r = booked.
Proof.
  revert s. induction values as [|v vs IH]; intros s H; simpl; [exact H|].
  apply IH. now apply onBookClick_keeps_booked.
Qed.

(** X11: from any state, once a click on the book button has booked a
    result, no later click on the book button, after any number of further
    book clicks in between, returns a room with the number of a room of that
    result. *)
Theorem onBookClick_no_double_booking :
  forall (s0 : AppState) (v1 : option Z) (res1 : BookingResult)
         (values : list (option Z)) (v2 : option Z) (res2 : BookingResult),
    lastBooking (onBookClick s0 v1) = Some res1 ->
    lastBooking
      (onBookClick (fold_left onBookClick values (onBookClick s0 v1)) v2)
    = Some res2 ->
    forall a b, In a (rooms res1) -> In b (rooms res2) -> id a <> id b.
Proof.
  intros s0 v1 res1 values v2 res2 H1 H2 a b Ha Hb Hid.
  apply onBookClick_Some_inv in H1. destruct H1 as (n1 & _ & _ & Hs1).
  apply onBookClick_Some_inv in H2. destruct H2 as (n2 & _ & Halloc2 & _).
  destruct (allocateRooms_result_shape _ _ _ Halloc2) as (_ & Hmem & _).
  destruct (Hmem b Hb) as [Hin Hfree].
  assert (Hbooked : status b = booked).
  { apply (fold_onBookClick_keeps_booked values (onBookClick s0 v1) (id a));
      [|assumption | now symmetry].
    rewrite Hs1. simpl. intros r' Hr' Hid'. apply in_map_iff in Hr'.
    destruct Hr' as (r & <- & Hr).
    destruct (markBooked_id res1 r) as (Hid'' & _). rewrite Hid'' in Hid'.
    unfold markBooked.
    replace (existsb (fun br => id br =? id r) (rooms res1)) with true;
      [reflexivity|].
    symmetry. apply existsb_exists. exists a. split; [assumption|].
    apply Z.eqb_eq. now symmetry. }
  congruence.
Qed.

Lemma onBookClick_no_double_booking_witness :
  id (mkRoom 102 1 1 free) <> id (mkRoom 103 1 2 free).
Proof.
  apply (onBookClick_no_double_booking initialState (Some 2)
           (mkBookingResult [mkRoom 101 1 0 free; mkRoom 102 1 1 free] 1)
           [None; Some 9] (Some 2)
           (mkBookingResult [mkRoom 103 1 2 free; mkRoom 104 1 3 free] 1)).
  - vm_compute. reflexivity.
  - vm_compute. reflexivity.
  - right. left. reflexivity.
  - left. reflexivity.
Defined.

(** ** The rows of the hotel view *)

Lemma concat_sorted_rows (m : list (Z * list Room)) :
  Permutation
    (concat (map snd
               (map (fun e : Z * list Room => (fst e, sortBy cmpIndex (snd e))) m)))
    (concat (map snd m)).
Proof.
  induction m as [|[f v] tl IH]; simpl; [apply perm_nil|].
  apply Permutation_app; [apply sortBy_perm | exact IH].
Qed.

Lemma StronglySorted_map {A B : Type} (R : A -> A -> Prop) (R' : B -> B -> Prop)
  (g : A -> B) (l : list A) :
  (forall a b, R a b -> R' (g a) (g b)) ->
  StronglySorted R l -> StronglySorted R' (map g l).
Proof.
  intros HR. induction 1 as [|x t _ IH Hx]; simpl; constructor; [assumption|].
  rewrite Forall_forall in *. intros y Hy. apply in_map_iff in Hy.
  destruct Hy as (z & <- & Hz). now apply HR, Hx.
Qed.

Lemma StronglySorted_strict (l : list (Z * list Room)) :
  StronglySorted (fun a b => fst b <= fst a) l -> NoDup (map fst l) ->
  StronglySorted (fun a b => fst b < fst a) l.
Proof.
  induction 1 as [|x t _ IH Hx]; simpl; intros Hnd; constructor.
  - apply IH. now inversion Hnd.
  - inversion Hnd as [|? ? Hnotin _]; subst.
    rewrite Forall_forall in *. intros y Hy.
    specialize (Hx y Hy).
    assert (fst y <> fst x) by (intros Heq; apply Hnotin; rewrite <- Heq; now apply in_map).
    lia.
Qed.

(** X12: the hotel view shows every room of the state exactly once; its
    rows are in strictly descending order of floor, no row is empty, every
    room of a row is on the row's floor, and the rooms of a row are in
    ascending order of position. *)
Theorem floorsView_rows :
  forall rs : list Room,
    Permutation (concat (map snd (floorsView rs))) rs
    /\ StronglySorted (fun row1 row2 => fst row2 < fst row1) (floorsView rs)
    /\ Forall (fun row =>
                 snd row <> []
                 /\ (forall r, In r (snd row) -> floor r = fst row)
                 /\ StronglySorted
                      (fun a b => indexOnFloor a <= indexOnFloor b) (snd row))
              (floorsView rs).
Proof.
  intros rs. unfold floorsView.
  pose proof (sortBy_perm cmpFloorDesc (groupByFloor rs)) as Hperm.
  split; [|split].
  - rewrite concat_sorted_rows, <- !flat_map_concat_map, Hperm.
    rewrite flat_map_concat_map. apply groupByFloor_concat.
  - apply (StronglySorted_map (fun a b : Z * list Room => fst b < fst a)).
    + intros a b H. exact H.
    + apply StronglySorted_strict.
      * eapply StronglySorted_impl; [|apply sortBy_sorted].
        -- unfold cmpFloorDesc. intros a b. simpl. lia.
        -- unfold cmpFloorDesc. intros a b. lia.
        -- unfold cmpFloorDesc. intros a b c. lia.
      * eapply Permutation_NoDup;
          [apply Permutation_map; symmetry; exact Hperm|].
        apply groupByFloor_keys_NoDup.
  - rewrite Forall_forall. intros row Hrow. apply in_map_iff in Hrow.
    destruct Hrow as ([f v] & <- & He). simpl.
    apply (Permutation_in _ Hperm) in He.
    destruct (groupByFloor_entry_nonempty rs f v He) as [Hv Hne].
    split; [|split].
    + intros Hnil. apply Hne.
      pose proof (sortBy_length cmpIndex v) as Hlen. rewrite Hnil in Hlen.
      destruct v; [reflexivity | discriminate].
    + intros r Hr. apply sortBy_In in Hr. rewrite Hv in Hr.
      apply filter_In in Hr. destruct Hr as [_ Hr].
      unfold onFloor in Hr. now apply Z.eqb_eq in Hr.
    + apply sortBy_cmpIndex_sorted.
Qed.

(** ** A booking on a reachable page *)

Lemma NoDup_map_on {A B : Type} (f : A -> B) (l : list A) :
  NoDup l -> (forall a b, In a l -> In b l -> f a = f b -> a = b) ->
  NoDup (map f l).
Proof.
  induction 1 as [|x l Hx _ IH]; intros Hinj; simpl; constructor.
  - intros Hin. apply in_map_iff in Hin. destruct Hin as (y & Hfy & Hy).
    apply Hx. rewrite <- (Hinj y x); [assumption | now right | now left | assumption].
  - apply IH. intros a b Ha Hb. apply Hinj; now right.
Qed.

Lemma run_snoc (events : list Event) (e : Event) :
  run (events ++ [e]) = handle (run events) e.
Proof. unfold run. now rewrite fold_left_app. Qed.

(** X13: on every page reached by clicks from the first one, a click on the
    book button with a count from 1 to 5 that does not exceed the number of
    free rooms books exactly that many rooms, with pairwise different room
    numbers, all of them free before the click; the free count of the header
    drops by the count and the booked count rises by it. *)
Theorem run_book_succeeds :
  forall (events : list Event) (v : Z),
    1 <= v <= 5 ->
    v <= Z.of_nat (length (filter isFree (appRooms (run events)))) ->
    let s := run events in
    let s' := run (events ++ [BookClick (Some v)]) in
    exists res,
      lastBooking s' = Some res
      /\ Z.of_nat (length (rooms res)) = v
      /\ NoDup (map id (rooms res))
      /\ (forall r, In r (rooms res) -> In r (appRooms s) /\ status r = free)
      /\ Z.of_nat (length (filter isFree (appRooms s'))) =
         Z.of_nat (length (filter isFree (appRooms s))) - v
      /\ Z.of_nat (length (filter isBooked (appRooms s'))) =
         Z.of_nat (length (filter isBooked (appRooms s))) + v.
Proof.
  intros events v Hv Hfree s s'.
  assert (Hinv : pageInvariant s)
    by (apply pageInvariant_fold, pageInvariant_initial).
  assert (Hinv' : pageInvariant s').
  { unfold s'. rewrite run_snoc. now apply pageInvariant_handle. }
  destruct Hinv as (Hlay & Hst & _ & _). destruct Hinv' as (Hlay' & Hst' & _ & _).
  assert (Hnd : NoDup (map id (appRooms s)))
    by (rewrite (sameLayout_ids _ _ Hlay); apply buildHotelRooms_ids_NoDup).
  destruct (allocateRooms_succeeds (appRooms s) v Hv Hfree) as (res & Halloc).
  destruct (allocateRooms_result_shape _ _ _ Halloc) as (Hlen & Hmem & Hdistinct).
  destruct (onBookClick_effect s v res Hnd Halloc)
    as (Hlast & _ & _ & _ & Hcount).
  assert (Hs' : s' = onBookClick s (Some v)) by (unfold s'; apply run_snoc).
  rewrite <- Hs' in Hlast, Hcount.
  exists res. split; [assumption|]. split; [assumption|]. split; [|split].
  - apply NoDup_map_on.
    + apply Hdistinct, NoDup_filter. eapply NoDup_map_inv. exact Hnd.
    + intros a b Ha Hb. apply (id_injective (appRooms s)); [assumption | |];
        now apply Hmem.
  - assumption.
  - pose proof (free_or_booked_count _ Hst) as Hsum.
    pose proof (free_or_booked_count _ Hst') as Hsum'.
    pose proof (sameLayout_length _ _ Hlay) as Hl.
    pose proof (sameLayout_length _ _ Hlay') as Hl'.
    split; lia.
Qed.

Lemma run_book_succeeds_witness :
  let events := [BookClick (Some 3); BookClick None; ResetClick; BookClick (Some 5)] in
  let s := run events in
  let s' := run (events ++ [BookClick (Some 4)]) in
  exists res,
    lastBooking s' = Some res
    /\ Z.of_nat (length (rooms res)) = 4
    /\ NoDup (map id (rooms res))
    /\ (forall r, In r (rooms res) -> In r (appRooms s) /\ status r = free)
    /\ Z.of_nat (length (filter isFree (appRooms s'))) =
       Z.of_nat (length (filter isFree (appRooms s))) - 4
    /\ Z.of_nat (length (filter isBooked (appRooms s'))) =
       Z.of_nat (length (filter isBooked (appRooms s))) + 4.
Proof.
  apply (run_book_succeeds
           [BookClick (Some 3); BookClick None; ResetClick; BookClick (Some 5)] 4).
  - lia.
  - vm_compute. discriminate.
Defined.

(** ** The rooms of a result on a list with distinct room numbers *)

(** C1: on a list of rooms with pairwise different room numbers, for a count
    from 1 to 5 and at least that many free rooms, the allocator returns a
    result of exactly [count] rooms; they are pairwise distinct, so are their
    room numbers, and each is a room of the list with status free. *)
Theorem allocateRooms_returns_count_free_rooms :
  forall (rs : list Room) (count : Z),
    NoDup (map id rs) ->
    1 <= count <= 5 ->
    count <= Z.of_nat (length (filter isFree rs)) ->
    exists res,
      allocateRooms rs count = Some res
      /\ Z.of_nat (length (rooms res)) = count
      /\ NoDup (rooms res)
      /\ NoDup (map id (rooms res))
      /\ (forall r, In r (rooms res) -> In r rs /\ status r = free).
Proof.
  intros rs count Hnd Hc Hf.
  destruct (allocateRooms_succeeds rs count Hc Hf) as (res & Halloc).
  destruct (allocateRooms_result_shape _ _ _ Halloc) as (Hlen & Hmem & Hdistinct).
  assert (Hrooms : NoDup (rooms res)).
  { apply Hdistinct, NoDup_filter. eapply NoDup_map_inv. exact Hnd. }
  exists res. split; [assumption|]. split; [assumption|].
  split; [assumption|]. split; [|assumption].
  apply NoDup_map_on; [assumption|].
  intros a b Ha Hb. apply (id_injective rs); [assumption | |]; now apply Hmem.
Qed.

Lemma allocateRooms_returns_count_free_rooms_witness :
  exists res,
    allocateRooms (bookedExcept [301; 302; 305; 510; 601]) 3 = Some res
    /\ Z.of_nat (length (rooms res)) = 3
    /\ NoDup (rooms res)
    /\ NoDup (map id (rooms res))
    /\ (forall r, In r (rooms res) ->
                  In r (bookedExcept [301; 302; 305; 510; 601])
                  /\ status r = free).
Proof.
  apply (allocateRooms_returns_count_free_rooms
           (bookedExcept [301; 302; 305; 510; 601]) 3).
  - assert (H : nodup Z.eq_dec (map id (bookedExcept [301; 302; 305; 510; 601])) =
                map id (bookedExcept [301; 302; 305; 510; 601]))
      by (vm_compute; reflexivity).
    rewrite <- H. apply NoDup_nodup.
  - lia.
  - vm_compute. discriminate.
Defined.
